(** * HutaoSave: the UIGF v3.0 exporter [export_gacha_uigf.py]

    A shallow embedding of the exporter and the properties of its
    pool-type table, item classification, timestamp normalizer and
    read-transform-write pipeline. *)

From Stdlib Require Import ZArith NArith List Ascii String DecimalString Lia.
From Stdlib Require DecimalPos DecimalFacts.
From stdpp Require Import base gmap list sorting.

Local Open Scope Z_scope.

(** ** Python strings

    A Python [str] is a sequence of Unicode code points. *)

Definition char : Type := N.
Definition str : Type := list char.

(** Decoding of UTF-8 bytes, used to write the string literals of the
    source as they stand in the (UTF-8 encoded) source file. *)
Fixpoint utf8_decode (bs : list N) : str :=
  match bs with
  | [] => []
  | b0 :: t0 =>
      if (b0 <? 0x80)%N then b0 :: utf8_decode t0
      else if (b0 <? 0xE0)%N then
        match t0 with
        | b1 :: t1 => ((b0 - 0xC0) * 64 + (b1 - 0x80))%N :: utf8_decode t1
        | _ => []
        end
      else if (b0 <? 0xF0)%N then
        match t0 with
        | b1 :: b2 :: t2 =>
            ((b0 - 0xE0) * 4096 + (b1 - 0x80) * 64 + (b2 - 0x80))%N
              :: utf8_decode t2
        | _ => []
        end
      else
        match t0 with
        | b1 :: b2 :: b3 :: t3 =>
            ((b0 - 0xF0) * 262144 + (b1 - 0x80) * 4096
             + (b2 - 0x80) * 64 + (b3 - 0x80))%N :: utf8_decode t3
        | _ => []
        end
  end.

Definition py (s : string) : str :=
  utf8_decode (map N_of_ascii (list_ascii_of_string s)).

Definition LF : char := 10%N.
Definition CR : char := 13%N.

(** [str(n)] for a Python [int]. *)
Definition str_int (n : Z) : str :=
  py (NilZero.string_of_int (Z.to_int n)).

(** [s.startswith(p)] *)
Fixpoint startswith (s p : str) : bool :=
  match p, s with
  | [], _ => true
  | _ :: _, [] => false
  | a :: p', c :: s' => (a =? c)%N && startswith s' p'
  end.

(** [s.replace(c, '')] for a one-character [c]. *)
Definition remove_char (c : char) (s : str) : str :=
  filter (fun x => x <> c) s.

(** The two character classes of the interpreter's Unicode database that the
    source relies on: decimal digits (what [\d] matches in a [str] pattern)
    and white space (what [str.strip()] removes).  The tables beyond ASCII
    vary with the Unicode version of the interpreter; their ASCII part does
    not. *)
Definition ascii_isdecimal (c : char) : bool :=
  (48 <=? c)%N && (c <=? 57)%N.

Definition ascii_isspace (c : char) : bool :=
  ((9 <=? c)%N && (c <=? 13)%N) || ((28 <=? c)%N && (c <=? 32)%N).

Class UnicodeData := {
  isdecimal : char -> bool;
  isspace : char -> bool;
  isdecimal_ascii : forall c, (c < 128)%N -> isdecimal c = ascii_isdecimal c;
  isspace_ascii : forall c, (c < 128)%N -> isspace c = ascii_isspace c
}.

(** White space as CPython's [_PyUnicode_IsWhitespace] lists it. *)
Definition cpython_isspace (c : char) : bool :=
  ascii_isspace c
  || (c =? 0x85)%N || (c =? 0xA0)%N || (c =? 0x1680)%N
  || ((0x2000 <=? c)%N && (c <=? 0x200A)%N)
  || (c =? 0x2028)%N || (c =? 0x2029)%N || (c =? 0x202F)%N
  || (c =? 0x205F)%N || (c =? 0x3000)%N.

(** Decimal digits: ASCII, Arabic-Indic and full-width digits (a part of
    category Nd that every Unicode version has).  The instance below is
    what the examples are run with; the theorems hold for every table. *)
Definition some_isdecimal (c : char) : bool :=
  ascii_isdecimal c
  || ((0x660 <=? c)%N && (c <=? 0x669)%N)
  || ((0xFF10 <=? c)%N && (c <=? 0xFF19)%N).

#[export, refine] Instance unicode_tables : UnicodeData := {|
  isdecimal := some_isdecimal;
  isspace := cpython_isspace
|}.
Proof.
  - intros c Hc. unfold some_isdecimal.
    replace ((0x660 <=? c)%N) with false by (symmetry; apply N.leb_gt; lia).
    replace ((0xFF10 <=? c)%N) with false by (symmetry; apply N.leb_gt; lia).
    now rewrite !orb_false_r.
  - intros c Hc. unfold cpython_isspace.
    replace ((0x2000 <=? c)%N) with false by (symmetry; apply N.leb_gt; lia).
    repeat match goal with
    | |- context [(c =? ?k)%N] =>
        replace ((c =? k)%N) with false by (symmetry; apply N.eqb_neq; lia)
    end.
    now rewrite !orb_false_r.
Defined.

Section Strings.
Context {U : UnicodeData}.

(** [s.lstrip()], [s.rstrip()] and [s.strip()] without argument. *)
Fixpoint lstrip (s : str) : str :=
  match s with
  | [] => []
  | c :: s' => if isspace c then lstrip s' else s
  end.

Definition rstrip (s : str) : str := rev (lstrip (rev s)).

Definition strip (s : str) : str := rstrip (lstrip s).

(** *** The fragment of [re] the source uses *)

Inductive re_item :=
| re_set (cs : list char)   (* [...] *)
| re_digit                  (* \d *)
| re_chr (c : char)         (* a literal character *)
| re_eos.                   (* $ *)

(** [$] (no MULTILINE flag): at the end of the string, or just before a
    newline that ends the string. *)
Definition at_eos (s : str) : bool :=
  match s with
  | [] => true
  | [c] => (c =? LF)%N
  | _ => false
  end.

Definition re_item_accepts (it : re_item) (c : char) : bool :=
  match it with
  | re_set cs => existsb (fun x => (x =? c)%N) cs
  | re_digit => isdecimal c
  | re_chr x => (x =? c)%N
  | re_eos => false
  end.

(** Match of the pattern at the head of [s]: the number of characters
    consumed. *)
Fixpoint re_match (p : list re_item) (s : str) : option nat :=
  match p with
  | [] => Some O
  | re_eos :: p' => if at_eos s then re_match p' s else None
  | it :: p' =>
      match s with
      | [] => None
      | c :: s' =>
          if re_item_accepts it c then S <$> re_match p' s' else None
      end
  end.

(** [re.sub(p, '', s)]: the leftmost matches, not overlapping, are dropped.
    [skip] counts the characters of the current match still to drop. *)
Fixpoint re_sub_from (p : list re_item) (skip : nat) (s : str) : str :=
  match s with
  | [] => []
  | c :: s' =>
      match skip with
      | S k => re_sub_from p k s'
      | O =>
          match re_match p s with
          | Some (S k) => re_sub_from p k s'
          | _ => c :: re_sub_from p O s'
          end
      end
  end.

Definition re_sub (p : list re_item) (s : str) : str := re_sub_from p O s.

(** [r'[+-]\d{2}:\d{2}$'] *)
Definition tz_suffix : list re_item :=
  [re_set [43%N; 45%N]; re_digit; re_digit; re_chr 58%N;
   re_digit; re_digit; re_eos].

(** [parse_timestamp] *)
Definition parse_timestamp (time_str : str) : str :=
  let time_str := remove_char LF time_str in
  let time_str := re_sub tz_suffix time_str in
  strip time_str.

End Strings.

(** ** The static tables and the classification heuristics *)

Module Pool.
Record t := { uigf_gacha_type : str; gacha_type : str }.
End Pool.

(** [GACHA_TYPE_MAP]: QueryType to the two UIGF pool codes. *)
Definition GACHA_TYPE_MAP : gmap Z Pool.t :=
  list_to_map
    [ (100, {| Pool.uigf_gacha_type := py "100"; Pool.gacha_type := py "100" |});
      (200, {| Pool.uigf_gacha_type := py "200"; Pool.gacha_type := py "200" |});
      (301, {| Pool.uigf_gacha_type := py "301"; Pool.gacha_type := py "301" |});
      (302, {| Pool.uigf_gacha_type := py "302"; Pool.gacha_type := py "302" |});
      (400, {| Pool.uigf_gacha_type := py "301"; Pool.gacha_type := py "400" |});
      (500, {| Pool.uigf_gacha_type := py "500"; Pool.gacha_type := py "500" |}) ].

(** [lo <= x <= hi], a chained comparison. *)
Definition between (lo x hi : Z) : bool := (lo <=? x) && (x <=? hi).

(** [get_rank_type] *)
Definition get_rank_type (item_id : Z) : str :=
  if between 10000 item_id 19999 then py "5"
  else if between 11000 item_id 16999 then py "4"
  else if between 14000 item_id 14999 then py "4"
  else if between 15000 item_id 15999 then py "3"
  else py "3".

Module Item.
Record t := { name : str; item_type : str; rank_type : str }.
End Item.

Definition character : str := py "角色".
Definition weapon : str := py "武器".

(** [get_item_info] *)
Definition get_item_info (item_id : Z) : Item.t :=
  let rank := get_rank_type item_id in
  if between 10000 item_id 19999 then
    {| Item.name := character ++ py "_" ++ str_int item_id;
       Item.item_type := character;
       Item.rank_type := rank |}
  else
    {| Item.name := weapon ++ py "_" ++ str_int item_id;
       Item.item_type := weapon;
       Item.rank_type := rank |}.

(** [get_timezone_from_uid] *)
Definition get_timezone_from_uid (uid : Z) : Z :=
  let uid_str := str_int uid in
  if startswith uid_str (py "6") then -5
  else if startswith uid_str (py "7") then 1
  else 8.

(** ** The store and the exported document *)

(** A row of [gacha_items], with the columns the query selects.  The
    identity key (ArchiveId) and the record id are integers. *)
Record row := {
  InnerId : Z;
  ArchiveId : Z;
  GachaType : Z;
  Id : Z;
  ItemId : Z;
  QueryType : Z;
  Time : str
}.

Module Rec.
Record t := {
  uigf_gacha_type : str;
  gacha_type : str;
  item_id : str;
  count : str;
  time : str;
  name : str;
  item_type : str;
  rank_type : str;
  id : str
}.
End Rec.

Module Info.
Record t := {
  uid : str;
  lang : str;
  export_timestamp : Z;
  export_time : str;
  export_app : str;
  export_app_version : str;
  uigf_version : str;
  region_time_zone : Z
}.
End Info.

Record uigf_data := { info : Info.t; list_ : list Rec.t }.

(** ** The world the exporter runs in *)

(** What [sqlite3] finds at [db_path]. *)
Inductive database :=
| db_unopenable                 (* sqlite3.connect raises *)
| db_no_table                   (* a database without a gacha_items table *)
| db_table (rows : list row).   (* gacha_items, in scan order *)

Inductive exn :=
| OperationalError (msg : str)  (* sqlite3.OperationalError *)
| OSError (msg : str).

Definition exn_str (e : exn) : str :=
  match e with OperationalError m | OSError m => m end.

Record world := {
  output_path : str;
  db : database;
  now_timestamp : Z;            (* int(datetime.now().timestamp()) *)
  now_strftime : str;           (* datetime.now().strftime(...) *)
  open_error : option str;      (* open(output_path, 'w') raises OSError *)
  dump_error : option str       (* writing the document raises OSError *)
}.

(** What is at [output_path]. *)
Inductive file_content :=
| absent
| content (s : str)
| json_partial (d : uigf_data)  (* a dump that was interrupted *)
| json_of (d : uigf_data).      (* json.dump(d, f, ensure_ascii=False, indent=2) *)

(** The input and output operations performed, oldest first. *)
Inductive io_event :=
| ev_connect | ev_query | ev_conn_close
| ev_open | ev_write | ev_file_close.

Record state := {
  conn_open : bool;             (* the sqlite3 connection is open *)
  file_open : bool;             (* the handle on output_path is open *)
  stdout : list str;            (* printed lines, oldest first *)
  stderr : list exn;            (* tracebacks printed *)
  out_file : file_content;
  io_log : list io_event
}.

Definition initial (f : file_content) : state :=
  {| conn_open := false; file_open := false; stdout := []; stderr := [];
     out_file := f; io_log := [] |}.

(** *** A state and exception monad *)

Inductive result (A : Type) :=
| Return (a : A)
| Raise (e : exn).
Arguments Return {A} a.
Arguments Raise {A} e.

Definition M (A : Type) : Type := state -> result A * state.

#[export] Instance M_ret : MRet M := fun A a s => (Return a, s).
#[export] Instance M_bind : MBind M := fun A B k m s =>
  match m s with
  | (Return a, s') => k a s'
  | (Raise e, s') => (Raise e, s')
  end.

Definition raise {A} (e : exn) : M A := fun s => (Raise e, s).

Definition modify (f : state -> state) : M unit := fun s => (Return (), f s).

Definition set_conn (b : bool) (s : state) : state :=
  {| conn_open := b; file_open := file_open s; stdout := stdout s;
     stderr := stderr s; out_file := out_file s; io_log := io_log s |}.
Definition set_file (b : bool) (s : state) : state :=
  {| conn_open := conn_open s; file_open := b; stdout := stdout s;
     stderr := stderr s; out_file := out_file s; io_log := io_log s |}.
Definition set_out (f : file_content) (s : state) : state :=
  {| conn_open := conn_open s; file_open := file_open s; stdout := stdout s;
     stderr := stderr s; out_file := f; io_log := io_log s |}.
Definition add_stdout (l : str) (s : state) : state :=
  {| conn_open := conn_open s; file_open := file_open s;
     stdout := stdout s ++ [l];
     stderr := stderr s; out_file := out_file s; io_log := io_log s |}.
Definition add_stderr (e : exn) (s : state) : state :=
  {| conn_open := conn_open s; file_open := file_open s; stdout := stdout s;
     stderr := stderr s ++ [e]; out_file := out_file s; io_log := io_log s |}.
Definition log (e : io_event) (s : state) : state :=
  {| conn_open := conn_open s; file_open := file_open s; stdout := stdout s;
     stderr := stderr s; out_file := out_file s; io_log := io_log s ++ [e] |}.

(** [print(line)] *)
Definition print (line : str) : M unit := modify (add_stdout line).

(** [try: body finally: cleanup], as the [with] statement runs it. *)
Definition finally {A} (body : M A) (cleanup : state -> state) : M A :=
  fun s => let '(r, s') := body s in (r, cleanup s').

(** ** The exporter *)

Section Exporter.
Context {U : UnicodeData}.
Variable w : world.

(** [sqlite3.connect(db_path)] *)
Definition connect : M unit :=
  match db w with
  | db_unopenable => raise (OperationalError (py "unable to open database file"))
  | _ => modify (fun s => log ev_connect (set_conn true s))
  end.

(** [conn.close()] *)
Definition conn_close : M unit :=
  modify (fun s => log ev_conn_close (set_conn false s)).

(** [SELECT DISTINCT ArchiveId FROM gacha_items LIMIT 1] and [fetchone()]:
    the key of the first row scanned, [None] on an empty table. *)
Definition select_first_archive : M (option Z) :=
  modify (log ev_query);;
  match db w with
  | db_table rows => mret (ArchiveId <$> head rows)
  | _ => raise (OperationalError (py "no such table: gacha_items"))
  end.

Definition Id_le (r1 r2 : row) : Prop := Id r1 <= Id r2.

#[export] Instance Id_le_dec r1 r2 : Decision (Id_le r1 r2) :=
  Z_le_dec (Id r1) (Id r2).

(** [WHERE ArchiveId = ? ORDER BY Id ASC] over the rows of the table. *)
Definition selected (uid : Z) (rows : list row) : list row :=
  merge_sort Id_le (filter (fun r => ArchiveId r = uid) rows).

(** [SELECT ... FROM gacha_items WHERE ArchiveId = ? ORDER BY Id ASC] and
    [fetchall()]. *)
Definition select_rows (uid : Z) : M (list row) :=
  modify (log ev_query);;
  match db w with
  | db_table rows => mret (selected uid rows)
  | _ => raise (OperationalError (py "no such table: gacha_items"))
  end.

(** The record the loop body builds for a row with a mapped pool type. *)
Definition make_record (r : row) (gacha_info : Pool.t) : Rec.t :=
  let item_info := get_item_info (ItemId r) in
  let formatted_time := parse_timestamp (Time r) in
  {| Rec.uigf_gacha_type := Pool.uigf_gacha_type gacha_info;
     Rec.gacha_type := Pool.gacha_type gacha_info;
     Rec.item_id := str_int (ItemId r);
     Rec.count := py "1";
     Rec.time := formatted_time;
     Rec.name := Item.name item_info;
     Rec.item_type := Item.item_type item_info;
     Rec.rank_type := Item.rank_type item_info;
     Rec.id := str_int (Id r) |}.

Definition unknown_pool_warning (query_type record_id : Z) : str :=
  py "警告: 未知的卡池类型 " ++ str_int query_type
  ++ py ", 跳过记录 " ++ str_int record_id.

(** [for row in rows: ...], from the list built so far. *)
Fixpoint build_list (rows : list row) (gacha_list : list Rec.t)
  : M (list Rec.t) :=
  match rows with
  | [] => mret gacha_list
  | r :: rest =>
      match GACHA_TYPE_MAP !! QueryType r with
      | None =>
          print (unknown_pool_warning (QueryType r) (Id r));;
          build_list rest gacha_list
      | Some gacha_info =>
          build_list rest (gacha_list ++ [make_record r gacha_info])
      end
  end.

(** [json.dump(uigf_data, f, ensure_ascii=False, indent=2)] *)
Definition json_dump (d : uigf_data) : M unit :=
  match dump_error w with
  | Some msg =>
      modify (fun s => log ev_write (set_out (json_partial d) s));;
      raise (OSError msg)
  | None => modify (fun s => log ev_write (set_out (json_of d) s))
  end.

(** [with open(output_path, 'w', encoding='utf-8') as f: body] *)
Definition with_open_w {A} (body : M A) : M A :=
  match open_error w with
  | Some msg => raise (OSError msg)
  | None =>
      modify (fun s => log ev_open (set_file true (set_out (content []) s)));;
      finally body (fun s => log ev_file_close (set_file false s))
  end.

(** [export_gacha_data(db_path, output_path, uid)].  The value [r] is the
    identity key the first block leaves in [uid], or [None] when that block
    has returned (the function then returns [None], Python's). *)
Definition export_gacha_data (uid : option Z) : M (option uigf_data) :=
  connect;;
  r ← match uid with
       | Some u => mret (Some u)
       | None =>
           result ← select_first_archive;
           match result with
           | Some u => mret (Some u)
           | None =>
               print (py "错误: 数据库中没有抽卡记录");;
               conn_close;;
               mret None
           end
       end;
  match r with
  | None => mret None
  | Some uid =>
      rows ← select_rows uid;
      conn_close;;
      match rows with
      | [] =>
          print (py "错误: 未找到 UID " ++ str_int uid ++ py " 的抽卡记录");;
          mret None
      | _ :: _ =>
          print (py "正在导出 UID " ++ str_int uid ++ py " 的 "
                 ++ str_int (Z.of_nat (length rows)) ++ py " 条抽卡记录...");;
          gacha_list ← build_list rows [];
          let export_timestamp := now_timestamp w in
          let export_time := now_strftime w in
          let region_time_zone := get_timezone_from_uid uid in
          let uigf_data :=
            {| info :=
                 {| Info.uid := str_int uid;
                    Info.lang := py "zh-cn";
                    Info.export_timestamp := export_timestamp;
                    Info.export_time := export_time;
                    Info.export_app := py "HutaoSave Exporter";
                    Info.export_app_version := py "1.0.0";
                    Info.uigf_version := py "v3.0";
                    Info.region_time_zone := region_time_zone |};
               list_ := gacha_list |} in
          with_open_w (json_dump uigf_data);;
          print (py "导出完成!");;
          print (py "- UID: " ++ str_int uid);;
          print (py "- 记录数: " ++ str_int (Z.of_nat (length gacha_list)));;
          print (py "- 时区偏移: " ++ str_int region_time_zone);;
          print (py "- 文件保存至: " ++ output_path w);;
          mret (Some uigf_data)
      end
  end.

(** The script run as [__main__]: the state it ends in and its exit status. *)
Definition main (s : state) : Z * state :=
  match export_gacha_data None s with
  | (Return _, s') => (0, s')
  | (Raise e, s') =>
      (0, add_stderr e (add_stdout (py "导出失败: " ++ exn_str e) s'))
  end.

End Exporter.

(** ** Timestamps *)

Definition ascii_str (s : str) : Prop := Forall (fun c => (c < 128)%N) s.

(** The three timestamps of the docstring of [parse_timestamp]. *)
Definition ts_clean : str := py "2024-11-16 10:33:15".
Definition ts_newline_offset : str := ts_clean ++ [LF] ++ py "+08:00".
Definition ts_utc_offset : str := ts_clean ++ py "+00:00".

(** The form [YYYY-MM-DD HH:MM:SS]: ASCII digits and the separators, one
    test for each character. *)
Definition is_chr (x : char) (c : char) : bool := (x =? c)%N.

Definition clean_shape : list (char → bool) :=
  let d := ascii_isdecimal in
  [d; d; d; d; is_chr 45%N; d; d; is_chr 45%N; d; d; is_chr 32%N;
   d; d; is_chr 58%N; d; d; is_chr 58%N; d; d].

Fixpoint has_shape (shape : list (char → bool)) (s : str) : bool :=
  match shape, s with
  | [], [] => true
  | f :: shape', c :: s' => f c && has_shape shape' s'
  | _, _ => false
  end.

(** A timestamp broken by a carriage return and line feed pair. *)
Definition ts_crlf : str :=
  py "2024-11-16" ++ [CR; LF] ++ py "10:33:15+08:00".

(** ** Notions used in the statements *)

(** The query types of [GACHA_TYPE_MAP]. *)
Definition pool_codes : list Z := [100; 200; 301; 302; 400; 500].

(** The record of a row, when its pool type is mapped. *)
Definition record_of {U : UnicodeData} (r : row) : option Rec.t :=
  make_record r <$> GACHA_TYPE_MAP !! QueryType r.

(** The warnings the loop prints for the rows it skips. *)
Definition row_warnings (rows : list row) : list str :=
  omap (fun r => match GACHA_TYPE_MAP !! QueryType r with
                 | None => Some (unknown_pool_warning (QueryType r) (Id r))
                 | Some _ => None
                 end) rows.

Definition add_stdouts (ls : list str) (s : state) : state :=
  {| conn_open := conn_open s; file_open := file_open s;
     stdout := stdout s ++ ls;
     stderr := stderr s; out_file := out_file s; io_log := io_log s |}.

(** The store has no record for the run: no record at all when no key is
    given, none under the key otherwise. *)
Definition no_records (uid : option Z) (rows : list row) : Prop :=
  match uid with
  | None => rows = []
  | Some u => filter (fun r => ArchiveId r = u) rows = []
  end.

Definition no_records_message (uid : option Z) : str :=
  match uid with
  | None => py "错误: 数据库中没有抽卡记录"
  | Some u => py "错误: 未找到 UID " ++ str_int u ++ py " 的抽卡记录"
  end.

(** The identity key of the run: the one given, or the key of the first row
    scanned. *)
Definition resolved_key (uid : option Z) (rows : list row) : option Z :=
  match uid with
  | Some u => Some u
  | None => ArchiveId <$> head rows
  end.

(** The document of a run for key [k] with the list [gacha_list]. *)
Definition document (w : world) (k : Z) (gacha_list : list Rec.t) : uigf_data :=
  {| info :=
       {| Info.uid := str_int k;
          Info.lang := py "zh-cn";
          Info.export_timestamp := now_timestamp w;
          Info.export_time := now_strftime w;
          Info.export_app := py "HutaoSave Exporter";
          Info.export_app_version := py "1.0.0";
          Info.uigf_version := py "v3.0";
          Info.region_time_zone := get_timezone_from_uid k |};
     list_ := gacha_list |}.

Definition a_world (d : database) : world :=
  {| output_path := py "gacha_export_uigf_v3.json";
     db := d;
     now_timestamp := 1731724395;
     now_strftime := py "2024-11-16 10:33:15";
     open_error := None;
     dump_error := None |}.

Definition a_row (archive id query_type : Z) : row :=
  {| InnerId := id; ArchiveId := archive; GachaType := query_type; Id := id;
     ItemId := 12000; QueryType := query_type; Time := ts_newline_offset |}.

(** Three rows under key 800000001, stored out of order: query types 100,
    999 and 301 with the record ids 1, 2 and 3. *)
Definition three_rows : list row :=
  [a_row 800000001 3 301; a_row 800000001 1 100; a_row 800000001 2 999].

(** The same store at a later time. *)
Definition a_later_world (d : database) : world :=
  {| output_path := py "gacha_export_uigf_v3.json";
     db := d;
     now_timestamp := 1731810795;
     now_strftime := py "2024-11-17 10:33:15";
     open_error := None;
     dump_error := None |}.

(** The document and the final state of a run from the initial state with
    no output file. *)
Definition run_state (w : world) (uid : option Z) : state :=
  (export_gacha_data (U := unicode_tables) w uid (initial absent)).2.

Definition run_document (w : world) (uid : option Z) : uigf_data :=
  match (export_gacha_data (U := unicode_tables) w uid (initial absent)).1
  with
  | Return (Some d) => d
  | _ => document w 0 []
  end.

(** ** Notions used in the further properties *)

(** The shape of a UTC offset: a sign, two digits, a colon, two digits. *)
Definition is_sign (c : char) : bool := (43 =? c)%N || (45 =? c)%N.

Definition offset_shape {U : UnicodeData} : list (char → bool) :=
  [is_sign; isdecimal; isdecimal; is_chr 58%N; isdecimal; isdecimal].

Definition strip_offset {U : UnicodeData} (t : str) : str :=
  if has_shape offset_shape (drop (length t - 6) t)
  then take (length t - 6) t
  else t.

(** [n] is written with the leading decimal digit [k]. *)
Definition has_leading_digit (k n : Z) : Prop :=
  ∃ m : nat, k * 10 ^ Z.of_nat m ≤ n < (k + 1) * 10 ^ Z.of_nat m.

(** The first digit and the other digits of a decimal number. *)
Definition uint_uncons (d : Decimal.uint) : option (Z * Decimal.uint) :=
  match d with
  | Decimal.Nil => None
  | Decimal.D0 l => Some (0, l) | Decimal.D1 l => Some (1, l)
  | Decimal.D2 l => Some (2, l) | Decimal.D3 l => Some (3, l)
  | Decimal.D4 l => Some (4, l) | Decimal.D5 l => Some (5, l)
  | Decimal.D6 l => Some (6, l) | Decimal.D7 l => Some (7, l)
  | Decimal.D8 l => Some (8, l) | Decimal.D9 l => Some (9, l)
  end.

(** The code points of the digits of a decimal number. *)
Fixpoint uint_codes (d : Decimal.uint) : str :=
  match d with
  | Decimal.Nil => []
  | Decimal.D0 l => 48%N :: uint_codes l | Decimal.D1 l => 49%N :: uint_codes l
  | Decimal.D2 l => 50%N :: uint_codes l | Decimal.D3 l => 51%N :: uint_codes l
  | Decimal.D4 l => 52%N :: uint_codes l | Decimal.D5 l => 53%N :: uint_codes l
  | Decimal.D6 l => 54%N :: uint_codes l | Decimal.D7 l => 55%N :: uint_codes l
  | Decimal.D8 l => 56%N :: uint_codes l | Decimal.D9 l => 57%N :: uint_codes l
  end.

(** The state a run ends in, by what it changed in the state it began in. *)
Definition final_state (s : state) (conn fopen : bool) (lines : list str)
    (f : file_content) (evs : list io_event) : state :=
  {| conn_open := conn; file_open := fopen; stdout := stdout s ++ lines;
     stderr := stderr s; out_file := f; io_log := io_log s ++ evs |}.

(** The operations on the store of a run that reaches [conn.close()] with a
    key. *)
Definition store_events (uid : option Z) : list io_event :=
  match uid with
  | Some _ => [ev_connect; ev_query; ev_conn_close]
  | None => [ev_connect; ev_query; ev_query; ev_conn_close]
  end.

Definition file_events : list io_event := [ev_open; ev_write; ev_file_close].

Definition exporting_line (k : Z) (sel : list row) : str :=
  py "正在导出 UID " ++ str_int k ++ py " 的 "
  ++ str_int (Z.of_nat (length sel)) ++ py " 条抽卡记录...".

Definition summary_lines (w : world) (k : Z) (gacha_list : list Rec.t)
  : list str :=
  [ py "导出完成!";
    py "- UID: " ++ str_int k;
    py "- 记录数: " ++ str_int (Z.of_nat (length gacha_list));
    py "- 时区偏移: " ++ str_int (get_timezone_from_uid k);
    py "- 文件保存至: " ++ output_path w ].


(** The world [w] with another database at [db_path]. *)
Definition with_db (w : world) (d : database) : world :=
  {| output_path := output_path w; db := d;
     now_timestamp := now_timestamp w; now_strftime := now_strftime w;
     open_error := open_error w; dump_error := dump_error w |}.


#[export] Instance io_event_eq_dec : EqDecision io_event.
Proof. solve_decision. Defined.

(** * Properties *)

(** ** The timestamp normalizer *)

Section StringFacts.
Context {U : UnicodeData}.

Lemma lstrip_suffix (s : str) : lstrip s `suffix_of` s.
Proof.
  induction s as [|c s IH]; simpl; [done|].
  destruct (isspace c); [by apply suffix_cons_r|done].
Qed.

Lemma elem_of_lstrip (x : char) (s : str) : x ∈ lstrip s → x ∈ s.
Proof.
  intros Hx. destruct (lstrip_suffix s) as [k Hk].
  rewrite Hk. apply elem_of_app. by right.
Qed.

Lemma elem_of_strip (x : char) (s : str) : x ∈ strip s → x ∈ s.
Proof.
  unfold strip, rstrip. rewrite list_elem_of_In, <- in_rev, <- list_elem_of_In.
  intros Hx. apply elem_of_lstrip in Hx.
  rewrite list_elem_of_In, <- in_rev, <- list_elem_of_In in Hx.
  by apply elem_of_lstrip.
Qed.

Lemma elem_of_re_sub_from (p : list re_item) (x : char) (s : str) :
  ∀ k, x ∈ re_sub_from p k s → x ∈ s.
Proof.
  induction s as [|c s IH]; intros k; simpl; [done|].
  destruct k as [|k].
  - destruct (re_match p (c :: s)) as [[|n]|].
    + rewrite !elem_of_cons. intros [->|Hx]; eauto.
    + intros Hx. apply elem_of_cons. eauto.
    + rewrite !elem_of_cons. intros [->|Hx]; eauto.
  - intros Hx. apply elem_of_cons. eauto.
Qed.

Lemma not_elem_of_remove_char (c : char) (s : str) : c ∉ remove_char c s.
Proof.
  unfold remove_char. rewrite list_elem_of_filter. by intros [? _].
Qed.

Lemma elem_of_parse_timestamp (x : char) (s : str) :
  x ∈ parse_timestamp s → x ∈ remove_char LF s.
Proof.
  unfold parse_timestamp, re_sub. intros Hx.
  by eapply elem_of_re_sub_from, elem_of_strip.
Qed.

(** On ASCII strings the normalizer does not depend on the Unicode tables. *)

Lemma re_item_accepts_ascii (it : re_item) (c : char) :
  (c < 128)%N →
  re_item_accepts it c = re_item_accepts (U := unicode_tables) it c.
Proof.
  intros Hc. destruct it; try reflexivity. unfold re_item_accepts.
  by rewrite (@isdecimal_ascii U c Hc), (@isdecimal_ascii unicode_tables c Hc).
Qed.

Lemma re_match_ascii (p : list re_item) :
  ∀ s, ascii_str s → re_match p s = re_match (U := unicode_tables) p s.
Proof.
  induction p as [|it p IH]; intros s Hs; [done|].
  destruct it as [cs| |x|]; cbn [re_match].
  1-3: destruct Hs as [|c s Hc Hs]; [done|];
       erewrite (re_item_accepts_ascii _ c Hc), (IH s Hs); done.
  destruct (at_eos s); [by apply IH|done].
Qed.

Lemma re_sub_from_ascii (p : list re_item) (s : str) :
  ascii_str s →
  ∀ k, re_sub_from p k s = re_sub_from (U := unicode_tables) p k s.
Proof.
  induction 1 as [|c s Hc Hs IH]; intros k; [done|].
  simpl. destruct k as [|k]; [|apply IH].
  rewrite (re_match_ascii p (c :: s)) by by constructor.
  destruct (re_match p (c :: s)) as [[|n]|]; by rewrite IH.
Qed.

Lemma lstrip_ascii (s : str) :
  ascii_str s → lstrip s = lstrip (U := unicode_tables) s.
Proof.
  induction 1 as [|c s Hc Hs IH]; [done|].
  cbn [lstrip].
  rewrite (@isspace_ascii U c Hc), (@isspace_ascii unicode_tables c Hc).
  by rewrite IH.
Qed.

Lemma ascii_str_elem_of (s t : str) :
  (∀ x, x ∈ t → x ∈ s) → ascii_str s → ascii_str t.
Proof.
  unfold ascii_str. rewrite !Forall_forall. eauto.
Qed.

Lemma strip_ascii (s : str) :
  ascii_str s → strip s = strip (U := unicode_tables) s.
Proof.
  intros Hs. unfold strip, rstrip.
  rewrite <- (lstrip_ascii s Hs). f_equal. apply lstrip_ascii.
  eapply ascii_str_elem_of; [|exact Hs].
  intros x. rewrite list_elem_of_In, <- in_rev, <- list_elem_of_In.
  apply elem_of_lstrip.
Qed.

Lemma parse_timestamp_ascii (s : str) :
  ascii_str s →
  parse_timestamp s = parse_timestamp (U := unicode_tables) s.
Proof.
  intros Hs. unfold parse_timestamp, re_sub.
  assert (ascii_str (remove_char LF s)) as Hr.
  { eapply ascii_str_elem_of; [|exact Hs].
    intros x. unfold remove_char. rewrite list_elem_of_filter. tauto. }
  rewrite <- (re_sub_from_ascii _ _ Hr). apply strip_ascii.
  eapply ascii_str_elem_of; [|exact Hr]. intros x. apply elem_of_re_sub_from.
Qed.

Lemma digit_lt c : ascii_isdecimal c = true → (c < 128)%N.
Proof. unfold ascii_isdecimal. rewrite andb_true_iff, !N.leb_le. lia. Qed.

Lemma digit_isdecimal c : ascii_isdecimal c = true → isdecimal c = true.
Proof. intros H. rewrite isdecimal_ascii; [done|by apply digit_lt]. Qed.

Lemma digit_not_space c : ascii_isdecimal c = true → isspace c = false.
Proof.
  intros H. rewrite isspace_ascii; [|by apply digit_lt].
  unfold ascii_isdecimal, ascii_isspace in *.
  rewrite andb_true_iff, !N.leb_le in H.
  apply orb_false_iff. split; apply andb_false_iff; rewrite !N.leb_gt; lia.
Qed.

Lemma digit_not_sign c :
  ascii_isdecimal c = true → (43 =? c)%N = false ∧ (45 =? c)%N = false.
Proof.
  unfold ascii_isdecimal. rewrite andb_true_iff, !N.leb_le, !N.eqb_neq. lia.
Qed.

Lemma digit_not_LF c : ascii_isdecimal c = true → c ≠ LF.
Proof. unfold ascii_isdecimal, LF. rewrite andb_true_iff, !N.leb_le. lia. Qed.

Lemma has_shape_length shape : ∀ s,
  has_shape shape s = true → length s = length shape.
Proof.
  induction shape as [|f shape IH]; intros [|c s]; simpl; try done.
  intros [_ H]%andb_true_iff. by rewrite (IH s H).
Qed.

Lemma remove_char_id (c : char) (s : str) :
  Forall (λ x, x ≠ c) s → remove_char c s = s.
Proof.
  unfold remove_char, str. induction 1 as [|x s Hx Hs IH]; [done|].
  rewrite filter_cons, decide_True by done. by rewrite IH.
Qed.

Lemma re_sub_from_no_match (p : list re_item) (s : str) :
  (∀ t, t `suffix_of` s → re_match p t = None) → re_sub_from p 0 s = s.
Proof.
  induction s as [|c s IH]; intros Hno; [done|].
  cbn [re_sub_from]. rewrite (Hno (c :: s)) by done.
  f_equal. apply IH. intros t Ht. apply Hno. by apply suffix_cons_r.
Qed.

Lemma re_match_tz_suffix_Some (t : str) (n : nat) :
  re_match tz_suffix t = Some n →
  ∃ sg a b c d rest,
    t = sg :: a :: b :: 58%N :: c :: d :: rest
    ∧ (sg = 43 ∨ sg = 45)%N
    ∧ at_eos rest = true.
Proof.
  unfold tz_suffix. intros H.
  destruct t as [|sg [|a [|b [|k [|c [|d rest]]]]]];
    cbn [re_match re_item_accepts existsb fmap option_fmap option_map] in H;
    repeat match type of H with
    | context [if ?x then _ else _] =>
        destruct x eqn:?;
        cbn [re_match fmap option_fmap option_map] in H; [|done]
    end; try done.
  exists sg, a, b, c, d, rest.
  match goal with Hk : (58 =? k)%N = true |- _ =>
    apply N.eqb_eq in Hk; subst k end.
  split; [done|]. split; [|done].
  match goal with Hs : (_ || _)%bool = true |- _ =>
    rewrite !orb_true_iff, !N.eqb_eq in Hs;
    destruct Hs as [Hs|[Hs|Hs]]; [by left|by right|done]
  end.
Qed.

Lemma strip_id (c c' : char) (s : str) :
  isspace c = false → isspace c' = false →
  strip (c :: s ++ [c']) = c :: s ++ [c'].
Proof.
  intros Hc Hc'. unfold strip, rstrip.
  assert (lstrip (c :: s ++ [c']) = c :: s ++ [c']) as ->
    by (cbn [lstrip]; by rewrite Hc).
  assert (rev (c :: s ++ [c']) = c' :: rev s ++ [c]) as E
    by (cbn [rev]; by rewrite rev_app_distr).
  rewrite E. cbn [lstrip]. rewrite Hc', <- E. apply rev_involutive.
Qed.

(** A timestamp of the form [YYYY-MM-DD HH:MM:SS] is left as it is. *)
Lemma parse_timestamp_clean (s : str) :
  has_shape clean_shape s = true → parse_timestamp s = s.
Proof.
  intros H. pose proof (has_shape_length _ _ H) as Hlen.
  unfold clean_shape in H.
  destruct s as [|y1 [|y2 [|y3 [|y4 [|p1 [|m1 [|m2 [|p2 [|d1 [|d2 [|sp [|h1 [|h2 [|q1 [|n1 [|n2 [|q2 [|s1 [|s2 [|? ?]]]]]]]]]]]]]]]]]]]]; try done.
  clear Hlen. cbn [has_shape] in H. unfold is_chr in H.
  repeat (apply andb_true_iff in H as [? H]). clear H.
  repeat match goal with
  | H : (_ =? _)%N = true |- _ => apply N.eqb_eq in H; subst
  end.
  unfold parse_timestamp.
  rewrite remove_char_id
    by (repeat (constructor; [first [by apply digit_not_LF | done]|]);
        constructor).
  unfold re_sub. rewrite re_sub_from_no_match.
  - apply (strip_id y1 s2 [y2; y3; y4; 45; m1; m2; 45; d1; d2; 32; h1; h2; 58;
                           n1; n2; 58; s1]%N); by apply digit_not_space.
  - intros t [k Hk]. destruct (re_match tz_suffix t) as [n|] eqn:E; [|done].
    exfalso. apply re_match_tz_suffix_Some in E
      as (sg & a & b & c' & d & rest & -> & Hsg & Heos).
    do 20 (destruct k as [|? k];
           [simplify_eq/=; try (by destruct Hsg)|]).
    all: try (by simplify_eq/=).
Qed.

End StringFacts.

Ltac ascii_str_tac := unfold ascii_str; apply Forall_forall;
  apply (Forall_forall (fun c => (c < 128)%N));
  vm_compute; repeat (constructor; [reflexivity|]); constructor.

(** C4: [parse_timestamp] maps "2024-11-16 10:33:15\n+08:00" and
    "2024-11-16 10:33:15+00:00" to "2024-11-16 10:33:15", and maps
    "2024-11-16 10:33:15" to itself, as it does every string of the form
    [YYYY-MM-DD HH:MM:SS], whatever the Unicode tables of the interpreter
    are beyond ASCII. *)
Theorem parse_timestamp_docstring_examples :
  ∀ U : UnicodeData,
    parse_timestamp ts_newline_offset = ts_clean
    ∧ parse_timestamp ts_utc_offset = ts_clean
    ∧ parse_timestamp ts_clean = ts_clean
    ∧ has_shape clean_shape ts_clean = true
    ∧ (∀ s : str, has_shape clean_shape s = true → parse_timestamp s = s).
Proof.
  intros U.
  rewrite (parse_timestamp_ascii ts_newline_offset) by ascii_str_tac.
  rewrite (parse_timestamp_ascii ts_utc_offset) by ascii_str_tac.
  rewrite (parse_timestamp_ascii ts_clean) by ascii_str_tac.
  repeat split; try (vm_compute; reflexivity).
  apply parse_timestamp_clean.
Qed.

(** C5, as the code has it: the result of [parse_timestamp] contains no
    line feed ('\n'), for every input string. *)
Theorem parse_timestamp_no_line_feed :
  ∀ (U : UnicodeData) (time_str : str),
    Forall (fun c => c ≠ LF) (parse_timestamp time_str).
Proof.
  intros U s. apply Forall_forall. intros x Hx ->.
  apply elem_of_parse_timestamp in Hx.
  by apply not_elem_of_remove_char in Hx.
Qed.

(** C5 fails as stated: a carriage return inside the timestamp stays, with
    the tables of the examples and with any other. *)
Lemma parse_timestamp_keeps_carriage_return :
  parse_timestamp (U := unicode_tables) ts_crlf
    = py "2024-11-16" ++ [CR] ++ py "10:33:15"
  ∧ CR ∈ parse_timestamp (U := unicode_tables) ts_crlf
  ∧ (∀ U : UnicodeData, CR ∈ parse_timestamp ts_crlf).
Proof.
  assert (parse_timestamp (U := unicode_tables) ts_crlf
          = py "2024-11-16" ++ [CR] ++ py "10:33:15") as E
    by (vm_compute; reflexivity).
  assert (CR ∈ py "2024-11-16" ++ [CR] ++ py "10:33:15") as Hin
    by (apply list_elem_of_In, in_or_app; right; by left).
  split; [exact E|]. split; [by rewrite E|].
  intros U. rewrite (parse_timestamp_ascii ts_crlf) by ascii_str_tac.
  by rewrite E.
Qed.

(** ** The pool-type table *)

Ltac solve_codes :=
  rewrite ?elem_of_cons, ?elem_of_nil in *; first [tauto | lia].

(** The table, entry by entry: 400 maps to the pair ("301", "400"), the five
    other codes to their own decimal string twice, nothing else is mapped. *)
Lemma GACHA_TYPE_MAP_lookup (q : Z) :
  GACHA_TYPE_MAP !! q =
    if decide (q = 400) then
      Some {| Pool.uigf_gacha_type := py "301"; Pool.gacha_type := py "400" |}
    else if decide (q ∈ [100; 200; 301; 302; 500]) then
      Some {| Pool.uigf_gacha_type := str_int q; Pool.gacha_type := str_int q |}
    else None.
Proof.
  destruct (decide (q = 400)) as [->|H400]; [done|].
  destruct (decide (q ∈ [100; 200; 301; 302; 500])) as [Hin|Hout].
  - repeat (apply elem_of_cons in Hin as [->|Hin]; [by vm_compute|]).
    by apply elem_of_nil in Hin.
  - unfold GACHA_TYPE_MAP. cbn [list_to_map foldr fst snd uncurry].
    rewrite !elem_of_cons, elem_of_nil in Hout.
    rewrite !lookup_insert_ne by (clear -Hout H400; intros <-; tauto).
    apply lookup_empty.
Qed.

Lemma lookup_is_Some_codes (q : Z) :
  is_Some (GACHA_TYPE_MAP !! q) ↔ q ∈ pool_codes.
Proof.
  rewrite GACHA_TYPE_MAP_lookup. unfold pool_codes.
  destruct (decide (q = 400)) as [->|H400].
  { split; intros H; first [by eexists|solve_codes]. }
  destruct (decide (q ∈ [100; 200; 301; 302; 500])) as [Hin|Hout].
  - split; intros H; first [by eexists|solve_codes].
  - split; intros H; first [by destruct H|solve_codes].
Qed.

Lemma lookup_None_codes (q : Z) :
  GACHA_TYPE_MAP !! q = None ↔ q ∉ pool_codes.
Proof. by rewrite <- lookup_is_Some_codes, eq_None_not_Some. Qed.

(** C7: the lookup in [GACHA_TYPE_MAP] gives a pair for exactly the six codes
    100, 200, 301, 302, 400 and 500, and [None] for every other integer. *)
Theorem GACHA_TYPE_MAP_six_codes :
  ∀ q : Z,
    (is_Some (GACHA_TYPE_MAP !! q) ↔ q ∈ pool_codes)
    ∧ (GACHA_TYPE_MAP !! q = None ↔ q ∉ pool_codes).
Proof.
  intros q. split.
  - apply lookup_is_Some_codes.
  - apply lookup_None_codes.
Qed.

(** ** Item classification *)

Lemma between_spec (lo x hi : Z) : between lo x hi = true ↔ lo ≤ x ≤ hi.
Proof. unfold between. rewrite andb_true_iff, !Z.leb_le. tauto. Qed.

Lemma character_neq_weapon : character ≠ weapon.
Proof. by vm_compute. Qed.

(** C1, as the code has it: the category is "角色" (character) exactly for
    the ids in [10000,19999] and "武器" (weapon) for all others, the name is
    the category, an underscore and the id; a weapon has rank "3", and a
    character outside [11000,16999] has rank "5".  Both 12000 and 15500 are
    characters. *)
Theorem get_item_info_classification :
  ∀ item_id : Z,
    let i := get_item_info item_id in
    (Item.item_type i = character ↔ 10000 ≤ item_id ≤ 19999)
    ∧ (Item.item_type i = weapon ↔ ¬ 10000 ≤ item_id ≤ 19999)
    ∧ Item.name i = Item.item_type i ++ py "_" ++ str_int item_id
    ∧ (¬ 10000 ≤ item_id ≤ 19999 → Item.rank_type i = py "3")
    ∧ (10000 ≤ item_id ≤ 10999 ∨ 17000 ≤ item_id ≤ 19999 →
       Item.rank_type i = py "5")
    ∧ Item.item_type (get_item_info 12000) = character
    ∧ Item.item_type (get_item_info 15500) = character.
Proof.
  intros item_id i. subst i. unfold get_item_info, get_rank_type.
  pose proof character_neq_weapon as Hne.
  destruct (between 10000 item_id 19999) eqn:E; cbn [Item.item_type Item.name Item.rank_type].
  - apply between_spec in E.
    repeat split; try done; try tauto; try lia.
  - assert (¬ 10000 ≤ item_id ≤ 19999) as E'
      by (rewrite <- between_spec, E; done).
    repeat split; try done; try tauto; try lia.
    intros _.
    destruct (between 11000 item_id 16999) eqn:E1;
      [apply between_spec in E1; lia|].
    destruct (between 14000 item_id 14999) eqn:E2;
      [apply between_spec in E2; lia|].
    by destruct (between 15000 item_id 15999).
Qed.

(** C1 fails as stated: 12000 gets rank "5", not "4", and 15500 is a
    character of rank "5", not a weapon of rank "3". *)
Lemma get_item_info_12000_15500 :
  Item.item_type (get_item_info 12000) = character
  ∧ Item.rank_type (get_item_info 12000) = py "5"
  ∧ Item.rank_type (get_item_info 12000) ≠ py "4"
  ∧ Item.item_type (get_item_info 15500) = character
  ∧ Item.item_type (get_item_info 15500) ≠ weapon
  ∧ Item.rank_type (get_item_info 15500) = py "5"
  ∧ Item.rank_type (get_item_info 15500) ≠ py "3".
Proof. by vm_compute. Qed.

(** ** The export pipeline *)

Ltac run_export :=
  unfold export_gacha_data, connect, select_first_archive, select_rows,
    conn_close, print, with_open_w, json_dump, finally, modify, raise;
  unfold mbind, M_bind, mret, M_ret.

Section LoopFacts.
Context {U : UnicodeData}.
Variable w : world.

Lemma add_stdouts_nil (s : state) : add_stdouts [] s = s.
Proof. destruct s. unfold add_stdouts. simpl. by rewrite app_nil_r. Qed.

Lemma add_stdouts_cons (l : str) (ls : list str) (s : state) :
  add_stdouts ls (add_stdout l s) = add_stdouts (l :: ls) s.
Proof. unfold add_stdouts, add_stdout. simpl. by rewrite <- app_assoc. Qed.

Lemma build_list_spec (rows : list row) :
  ∀ (gacha_list : list Rec.t) (s : state),
    build_list rows gacha_list s
    = (Return (gacha_list ++ omap record_of rows),
       add_stdouts (row_warnings rows) s).
Proof.
  induction rows as [|r rows IH]; intros acc s.
  - unfold row_warnings. cbn [build_list omap list_omap].
    rewrite app_nil_r, add_stdouts_nil. reflexivity.
  - unfold row_warnings. cbn [build_list omap list_omap].
    fold (row_warnings rows). unfold record_of at 1.
    destruct (GACHA_TYPE_MAP !! QueryType r) as [gi|]; simpl.
    + rewrite IH. by rewrite <- app_assoc.
    + unfold print, modify, mbind, M_bind. rewrite IH.
      by rewrite add_stdouts_cons.
Qed.

End LoopFacts.

Arguments build_list : simpl never.
Arguments selected : simpl never.

Section ExportFacts.
Context {U : UnicodeData}.
Variable w : world.

(** C10: on the two no-record paths [export_gacha_data] returns [None]
    without raising, with the connection closed, and without opening or
    writing the output file, whose content is left as it was. *)
Theorem export_no_records_keeps_file :
  ∀ (uid : option Z) (rows : list row) (s : state),
    db w = db_table rows →
    no_records uid rows →
    ∃ (s' : state) (evs : list io_event),
      export_gacha_data w uid s = (Return None, s')
      ∧ out_file s' = out_file s
      ∧ io_log s' = io_log s ++ evs
      ∧ (ev_open ∉ evs) ∧ (ev_write ∉ evs)
      ∧ file_open s' = file_open s
      ∧ conn_open s' = false.
Proof.
  intros uid rows s Hdb Hno. run_export. rewrite Hdb.
  destruct uid as [u|]; simpl in Hno;
    [unfold selected; rewrite Hno|subst rows]; simpl.
  all: eexists _, [ev_connect; ev_query; ev_conn_close].
  all: split; [reflexivity|]; simpl.
  all: rewrite <- !app_assoc; repeat split; try done.
  all: rewrite !elem_of_cons, elem_of_nil; intros H; by decompose [or] H.
Qed.

(** The run ends with the connection closed whenever it returns. *)
Lemma export_returns_closed (uid : option Z) (s s' : state) v :
  export_gacha_data w uid s = (Return v, s') → conn_open s' = false.
Proof.
  run_export.
  destruct (db w) as [| |rows]; destruct uid as [u|]; simpl; try done.
  - destruct (selected u rows) as [|r sel]; simpl.
    { by intros [= _ <-]. }
    rewrite build_list_spec; simpl.
    destruct (open_error w); simpl; [done|].
    destruct (dump_error w); simpl; [done|]. by intros [= _ <-].
  - destruct rows as [|r0 rows]; simpl.
    { by intros [= _ <-]. }
    destruct (selected (ArchiveId r0) (r0 :: rows)) as [|r sel]; simpl.
    { by intros [= _ <-]. }
    rewrite build_list_spec; simpl.
    destruct (open_error w); simpl; [done|].
    destruct (dump_error w); simpl; [done|]. by intros [= _ <-].
Qed.

(** The handle on the output file is closed at every exit. *)
Lemma export_closes_file (uid : option Z) (s : state) :
  file_open s = false → file_open (export_gacha_data w uid s).2 = false.
Proof.
  intros Hs. run_export.
  destruct (db w) as [| |rows]; destruct uid as [u|]; simpl; try done.
  - destruct (selected u rows) as [|r sel]; simpl; [done|].
    rewrite build_list_spec; simpl.
    destruct (open_error w); simpl; [done|].
    by destruct (dump_error w).
  - destruct rows as [|r0 rows]; simpl; [done|].
    destruct (selected (ArchiveId r0) (r0 :: rows)) as [|r sel]; simpl; [done|].
    rewrite build_list_spec; simpl.
    destruct (open_error w); simpl; [done|].
    by destruct (dump_error w).
Qed.

(** A failing query leaves the connection open. *)
Lemma export_query_error_leaks (uid : option Z) (s : state) :
  db w = db_no_table →
  ∃ s', export_gacha_data w uid s
        = (Raise (OperationalError (py "no such table: gacha_items")), s')
        ∧ conn_open s' = true
        ∧ io_log s' = io_log s ++ [ev_connect; ev_query].
Proof.
  intros Hdb. run_export. rewrite Hdb.
  destruct uid; simpl; eexists; (split; [reflexivity|]); simpl;
    by rewrite <- app_assoc.
Qed.

(** *** The rows selected and the records made of them *)

#[export] Instance Id_le_total : Total Id_le.
Proof. intros r1 r2. unfold Id_le. lia. Qed.

#[export] Instance Id_le_trans : Transitive Id_le.
Proof. intros r1 r2 r3. unfold Id_le. lia. Qed.

Lemma selected_Permutation (k : Z) (rows : list row) :
  selected k rows ≡ₚ filter (λ r, ArchiveId r = k) rows.
Proof. apply merge_sort_Permutation. Qed.

Lemma selected_Sorted (k : Z) (rows : list row) :
  StronglySorted Id_le (selected k rows).
Proof. apply Sorted_StronglySorted; [apply _|]. apply Sorted_merge_sort, _. Qed.

Lemma elem_of_selected (k : Z) (rows : list row) (r : row) :
  r ∈ selected k rows ↔ ArchiveId r = k ∧ r ∈ rows.
Proof. by rewrite selected_Permutation, list_elem_of_filter. Qed.

Lemma StronglySorted_filter_rows (P : row → Prop) `{!∀ r, Decision (P r)}
    (l : list row) :
  StronglySorted Id_le l → StronglySorted Id_le (filter P l).
Proof.
  induction 1 as [|r l Hl IH Hr]; [constructor|].
  rewrite filter_cons. destruct (decide (P r)); [|done].
  constructor; [done|].
  rewrite Forall_forall in Hr |- *. intros x [_ Hx]%list_elem_of_filter.
  by apply Hr.
Qed.

(** The list built is one record for each row with a mapped pool type, in the
    order of the rows. *)
Lemma omap_record_of_Forall2 (l : list row) :
  Forall2 (λ r rec, ∃ gacha_info,
             GACHA_TYPE_MAP !! QueryType r = Some gacha_info
             ∧ rec = make_record r gacha_info)
    (filter (λ r, QueryType r ∈ pool_codes) l) (omap record_of l).
Proof.
  induction l as [|r l IH]; [constructor|].
  rewrite filter_cons. cbn [omap list_omap]. unfold record_of at 1.
  destruct (decide (QueryType r ∈ pool_codes)) as [Hin|Hout].
  - apply lookup_is_Some_codes in Hin as [gi Hgi]. rewrite Hgi. simpl.
    constructor; [by exists gi|done].
  - apply lookup_None_codes in Hout. by rewrite Hout.
Qed.

Lemma elem_of_row_warnings (l : list row) (r : row) :
  r ∈ l → QueryType r ∉ pool_codes →
  unknown_pool_warning (QueryType r) (Id r) ∈ row_warnings l.
Proof.
  intros Hr Hout. unfold row_warnings. apply list_elem_of_omap.
  exists r. split; [done|]. apply lookup_None_codes in Hout. by rewrite Hout.
Qed.

(** A run that returns a document: the document and where it went. *)
Lemma export_returns_document (uid : option Z) (s s' : state) (d : uigf_data) :
  export_gacha_data w uid s = (Return (Some d), s') →
  ∃ (rows : list row) (k : Z),
    db w = db_table rows
    ∧ resolved_key uid rows = Some k
    ∧ selected k rows ≠ []
    ∧ d = document w k (omap record_of (selected k rows))
    ∧ out_file s' = json_of d
    ∧ (∀ l, l ∈ row_warnings (selected k rows) → l ∈ stdout s').
Proof.
  run_export.
  destruct (db w) as [| |rows]; destruct uid as [u|]; simpl; try done.
  - destruct (selected u rows) as [|r sel] eqn:Hsel; simpl; [done|].
    rewrite build_list_spec; simpl.
    destruct (open_error w); simpl; [done|].
    destruct (dump_error w); simpl; [done|].
    intros [= <- <-]. exists rows, u. rewrite Hsel.
    repeat split; try done. simpl. intros l Hl.
    rewrite !elem_of_app. tauto.
  - destruct rows as [|r0 rows]; simpl; [done|].
    destruct (selected (ArchiveId r0) (r0 :: rows)) as [|r sel] eqn:Hsel;
      simpl; [done|].
    rewrite build_list_spec; simpl.
    destruct (open_error w); simpl; [done|].
    destruct (dump_error w); simpl; [done|].
    intros [= <- <-]. exists (r0 :: rows), (ArchiveId r0). rewrite Hsel.
    repeat split; try done. simpl. intros l Hl.
    rewrite !elem_of_app. tauto.
Qed.

(** With rows under the key and no error on the output file, the run returns
    its document. *)
Lemma export_success (uid : option Z) (rows : list row) (k : Z) (s : state) :
  db w = db_table rows →
  open_error w = None →
  dump_error w = None →
  resolved_key uid rows = Some k →
  selected k rows ≠ [] →
  ∃ s', export_gacha_data w uid s
        = (Return (Some (document w k (omap record_of (selected k rows)))), s').
Proof.
  intros Hdb Hopen Hdump Hk Hsel. run_export. rewrite Hdb, Hopen, Hdump.
  destruct uid as [u|]; simpl in *.
  - injection Hk as ->.
    destruct (selected k rows) as [|r sel] eqn:E; [done|]. simpl.
    rewrite build_list_spec; simpl. by eexists.
  - destruct rows as [|r0 rows]; [done|]. simpl in *. injection Hk as <-.
    destruct (selected (ArchiveId r0) (r0 :: rows)) as [|r sel] eqn:E;
      [done|]. simpl.
    rewrite build_list_spec; simpl. by eexists.
Qed.

(** The script ends with exit status 0 whatever [export_gacha_data] did. *)
Lemma main_exit_status (s : state) : (main w s).1 = 0.
Proof. unfold main. by destruct (export_gacha_data w None s) as [[v|e] s']. Qed.

End ExportFacts.

(** *** The exported list *)

Section ListFacts.
Context {U : UnicodeData}.

Lemma selected_nonempty (k : Z) (rows : list row) :
  filter (λ r, ArchiveId r = k) rows ≠ [] → selected k rows ≠ [].
Proof.
  intros Hne Hsel. apply Hne, Permutation_nil_r.
  by rewrite <- selected_Permutation, Hsel.
Qed.

(** Three rows with the record ids 1, 2 and 3 under one key are selected in
    that order, however the table stores them. *)
Lemma selected_three (k : Z) (rows : list row) (r1 r2 r3 : row) :
  rows ≡ₚ [r1; r2; r3] →
  ArchiveId r1 = k → ArchiveId r2 = k → ArchiveId r3 = k →
  Id r1 = 1 → Id r2 = 2 → Id r3 = 3 →
  selected k rows = [r1; r2; r3].
Proof.
  intros Hperm Hk1 Hk2 Hk3 H1 H2 H3.
  apply (StronglySorted_unique_strong Id_le).
  - intros x1 x2 Hx1 Hx2. unfold Id_le.
    apply elem_of_selected in Hx1 as [_ Hx1]. rewrite Hperm in Hx1.
    rewrite !elem_of_cons, elem_of_nil in Hx1, Hx2.
    destruct Hx1 as [->|[->|[->|[]]]], Hx2 as [->|[->|[->|[]]]];
      first [done|lia].
  - apply selected_Sorted.
  - repeat constructor; unfold Id_le; lia.
  - rewrite selected_Permutation, Hperm.
    rewrite !filter_cons, filter_nil.
    by rewrite !decide_True.
Qed.

End ListFacts.

(** C3: when the store has rows under the identity key of the run and the
    output file can be written, the exported list holds exactly one record
    for each row of that key whose query type is one of the six mapped codes,
    in ascending order of the record id, and every row of the key with
    another query type is skipped with a printed warning that names the code
    and the record id.  In particular, with three rows under key 800000001
    of query types 100, 999 and 301 and record ids 1, 2 and 3, the list has
    exactly the two records of ids 1 and 3, in that order, and the time zone
    in the header is 8. *)
Theorem export_list_of_mapped_rows :
  ∀ U : UnicodeData,
    (∀ (w : world) (uid : option Z) (rows : list row) (k : Z) (s : state),
       db w = db_table rows →
       open_error w = None →
       dump_error w = None →
       resolved_key uid rows = Some k →
       filter (λ r, ArchiveId r = k) rows ≠ [] →
       ∃ (doc : uigf_data) (s' : state) (kept : list row),
         export_gacha_data w uid s = (Return (Some doc), s')
         ∧ out_file s' = json_of doc
         ∧ kept ≡ₚ filter (λ r, QueryType r ∈ pool_codes ∧ ArchiveId r = k) rows
         ∧ Sorted Z.le (Id <$> kept)
         ∧ Forall2 (λ r rec, ∃ gacha_info,
                      GACHA_TYPE_MAP !! QueryType r = Some gacha_info
                      ∧ rec = make_record r gacha_info)
             kept (list_ doc)
         ∧ (∀ r, r ∈ rows → ArchiveId r = k → QueryType r ∉ pool_codes →
              unknown_pool_warning (QueryType r) (Id r) ∈ stdout s')
         ∧ Info.region_time_zone (info doc) = get_timezone_from_uid k)
    ∧ (∀ (w : world) (uid : option Z) (rows : list row) (r1 r2 r3 : row)
         (s : state),
         db w = db_table rows →
         open_error w = None →
         dump_error w = None →
         rows ≡ₚ [r1; r2; r3] →
         uid = None ∨ uid = Some 800000001 →
         ArchiveId r1 = 800000001 ∧ QueryType r1 = 100 ∧ Id r1 = 1 →
         ArchiveId r2 = 800000001 ∧ QueryType r2 = 999 ∧ Id r2 = 2 →
         ArchiveId r3 = 800000001 ∧ QueryType r3 = 301 ∧ Id r3 = 3 →
         ∃ (doc : uigf_data) (s' : state) (rec1 rec3 : Rec.t),
           export_gacha_data w uid s = (Return (Some doc), s')
           ∧ out_file s' = json_of doc
           ∧ list_ doc = [rec1; rec3]
           ∧ Rec.id rec1 = py "1" ∧ Rec.id rec3 = py "3"
           ∧ Info.region_time_zone (info doc) = 8
           ∧ py "警告: 未知的卡池类型 999, 跳过记录 2" ∈ stdout s').
Proof.
  intros U. split.
  - intros w uid rows k s Hdb Hopen Hdump Hk Hne.
    apply selected_nonempty in Hne.
    destruct (export_success w uid rows k s Hdb Hopen Hdump Hk Hne)
      as [s' Hrun].
    destruct (export_returns_document w uid s s' _ Hrun)
      as (rows' & k' & Hdb' & Hk' & _ & _ & Hout & Hwarn).
    assert (rows' = rows) as -> by congruence.
    assert (k' = k) as -> by congruence.
    eexists _, s', (filter (λ r, QueryType r ∈ pool_codes) (selected k rows)).
    split; [exact Hrun|]. split; [exact Hout|]. split.
    { by rewrite selected_Permutation, list_filter_filter. }
    split.
    { apply (Sorted_fmap Id Id_le Z.le); [done|].
      apply StronglySorted_Sorted, StronglySorted_filter_rows, selected_Sorted. }
    split; [apply omap_record_of_Forall2|]. split; [|done].
    intros r Hr Hkey Hq. apply Hwarn, elem_of_row_warnings; [|done].
    by apply elem_of_selected.
  - intros w uid rows r1 r2 r3 s Hdb Hopen Hdump Hperm Huid
      (Hk1 & Hq1 & H1) (Hk2 & Hq2 & H2) (Hk3 & Hq3 & H3).
    set (k := 800000001) in *.
    assert (r1 ∈ rows) as Hr1 by (rewrite Hperm; left).
    assert (resolved_key uid rows = Some k) as Hk.
    { destruct Huid as [->| ->]; [|done].
      destruct rows as [|r0 rows]; [by apply elem_of_nil in Hr1|]. simpl.
      assert (r0 ∈ [r1; r2; r3]) as Hr0 by (rewrite <- Hperm; left).
      rewrite !elem_of_cons, elem_of_nil in Hr0.
      by destruct Hr0 as [->|[->|[->|[]]]]; f_equal. }
    pose proof (selected_three k rows r1 r2 r3 Hperm Hk1 Hk2 Hk3 H1 H2 H3)
      as Hsel.
    assert (selected k rows ≠ []) as Hne by by rewrite Hsel.
    destruct (export_success w uid rows k s Hdb Hopen Hdump Hk Hne)
      as [s' Hrun].
    destruct (export_returns_document w uid s s' _ Hrun)
      as (rows' & k' & Hdb' & Hk' & _ & _ & Hout & Hwarn).
    assert (rows' = rows) as -> by congruence.
    assert (k' = k) as -> by congruence.
    rewrite Hsel in Hrun, Hout, Hwarn.
    assert (omap record_of [r1; r2; r3]
            = [make_record r1 {| Pool.uigf_gacha_type := py "100";
                                 Pool.gacha_type := py "100" |};
               make_record r3 {| Pool.uigf_gacha_type := py "301";
                                 Pool.gacha_type := py "301" |}]) as Hlist.
    { cbn [omap list_omap]. unfold record_of. by rewrite Hq1, Hq2, Hq3. }
    rewrite Hlist in Hrun, Hout.
    eexists _, s', _, _. split; [exact Hrun|]. split; [exact Hout|].
    split; [reflexivity|]. cbn [make_record Rec.id]. rewrite H1, H3.
    split; [done|]. split; [done|]. split; [by vm_compute|].
    apply Hwarn. unfold row_warnings. cbn [omap list_omap].
    rewrite Hq1, Hq2, Hq3, H2. vm_compute. left.
Qed.

(** C9: in every exported document the record of a row with query type 400
    has [uigf_gacha_type] "301" and [gacha_type] "400", two different codes,
    and the record of a row with one of the codes 100, 200, 301, 302 and 500
    has the decimal string of that code in both fields; every selected row
    with a mapped code has its record. *)
Theorem exported_pool_codes :
  ∀ (U : UnicodeData) (w : world) (uid : option Z) (s s' : state)
    (doc : uigf_data),
    export_gacha_data w uid s = (Return (Some doc), s') →
    ∃ (rows : list row) (k : Z),
      db w = db_table rows
      ∧ resolved_key uid rows = Some k
      ∧ Forall2 (λ r rec,
                   if decide (QueryType r = 400) then
                     Rec.uigf_gacha_type rec = py "301"
                     ∧ Rec.gacha_type rec = py "400"
                     ∧ Rec.uigf_gacha_type rec ≠ Rec.gacha_type rec
                   else
                     QueryType r ∈ [100; 200; 301; 302; 500]
                     ∧ Rec.uigf_gacha_type rec = str_int (QueryType r)
                     ∧ Rec.gacha_type rec = str_int (QueryType r))
          (filter (λ r, QueryType r ∈ pool_codes) (selected k rows))
          (list_ doc).
Proof.
  intros U w uid s s' doc Hrun.
  destruct (export_returns_document w uid s s' doc Hrun)
    as (rows & k & Hdb & Hk & _ & -> & _ & _).
  exists rows, k. split; [done|]. split; [done|]. simpl.
  eapply Forall2_impl; [apply omap_record_of_Forall2|].
  intros r rec (gi & Hgi & ->). rewrite GACHA_TYPE_MAP_lookup in Hgi.
  destruct (decide (QueryType r = 400)) as [Hq|Hq].
  - injection Hgi as <-. by vm_compute.
  - destruct (decide (QueryType r ∈ [100; 200; 301; 302; 500])); [|done].
    injection Hgi as <-. done.
Qed.

(** C8: two runs on the same store with the same explicit identity key that
    both return a document give the same list and the same header apart
    from [export_timestamp] and [export_time]; each document is what the run
    wrote to the output file. *)
Theorem export_twice_same_list :
  ∀ (U : UnicodeData) (w1 w2 : world) (uid : Z) (s1 s2 s1' s2' : state)
    (d1 d2 : uigf_data),
    db w1 = db w2 →
    export_gacha_data w1 (Some uid) s1 = (Return (Some d1), s1') →
    export_gacha_data w2 (Some uid) s2 = (Return (Some d2), s2') →
    list_ d1 = list_ d2
    ∧ Info.uid (info d1) = Info.uid (info d2)
    ∧ Info.lang (info d1) = Info.lang (info d2)
    ∧ Info.export_app (info d1) = Info.export_app (info d2)
    ∧ Info.export_app_version (info d1) = Info.export_app_version (info d2)
    ∧ Info.uigf_version (info d1) = Info.uigf_version (info d2)
    ∧ Info.region_time_zone (info d1) = Info.region_time_zone (info d2)
    ∧ out_file s1' = json_of d1
    ∧ out_file s2' = json_of d2.
Proof.
  intros U w1 w2 uid s1 s2 s1' s2' d1 d2 Hdb Hrun1 Hrun2.
  destruct (export_returns_document w1 _ _ _ _ Hrun1)
    as (rows1 & k1 & Hdb1 & [= <-] & _ & -> & Hout1 & _).
  destruct (export_returns_document w2 _ _ _ _ Hrun2)
    as (rows2 & k2 & Hdb2 & [= <-] & _ & -> & Hout2 & _).
  assert (rows2 = rows1) as -> by congruence.
  by repeat split.
Qed.

(** C2, as the code has it: on a store without any record (no key given) and
    on a key without rows, [export_gacha_data] prints its error message and
    returns [None]; no exception is raised, nothing is written to standard
    error, and the script run on such a store ends with exit status 0. *)
Theorem export_no_records_reported :
  ∀ (U : UnicodeData) (w : world) (uid : option Z) (rows : list row)
    (s : state),
    db w = db_table rows →
    no_records uid rows →
    ∃ s' : state,
      export_gacha_data w uid s = (Return None, s')
      ∧ stdout s' = stdout s ++ [no_records_message uid]
      ∧ stderr s' = stderr s
      ∧ (uid = None → main w s = (0, s'))
      ∧ (main w s).1 = 0.
Proof.
  intros U w uid rows s Hdb Hno.
  pose proof (main_exit_status w s) as Hexit. revert Hexit.
  unfold main. run_export. rewrite Hdb.
  destruct uid as [u|]; simpl in Hno;
    [unfold selected; rewrite Hno|subst rows]; simpl.
  all: intros Hexit; eexists; split; [reflexivity|]; by simpl.
Qed.

(** C2 fails as stated: on the empty store and on a key without rows the
    function returns [None] instead of raising, and the script ends with
    exit status 0, also when an exception was raised. *)
Lemma export_no_records_returns_normally :
  (export_gacha_data (U := unicode_tables)
     (a_world (db_table [])) None (initial absent)).1 = Return None
  ∧ (export_gacha_data (U := unicode_tables)
       (a_world (db_table [a_row 800000001 1 100])) (Some 600000001)
       (initial absent)).1 = Return None
  ∧ (main (U := unicode_tables) (a_world (db_table [])) (initial absent)).1
    = 0
  ∧ (main (U := unicode_tables) (a_world db_no_table) (initial absent)).1
    = 0.
Proof. by vm_compute. Qed.

(** C6 fails on the code: when the query raises, [export_gacha_data] leaves
    with the connection still open (no [conn.close()] was run). *)
Theorem export_query_error_connection_open :
  ∃ s' : state,
    export_gacha_data (U := unicode_tables) (a_world db_no_table) None
      (initial absent)
    = (Raise (OperationalError (py "no such table: gacha_items")), s')
    ∧ conn_open s' = true
    ∧ io_log s' = [ev_connect; ev_query].
Proof. eexists. by vm_compute. Qed.

(** ** The theorems at concrete stores *)

Lemma export_list_of_mapped_rows_witness :
  ∃ (doc : uigf_data) (s' : state) (rec1 rec3 : Rec.t),
    export_gacha_data (U := unicode_tables)
      (a_world (db_table three_rows)) None (initial absent)
    = (Return (Some doc), s')
    ∧ out_file s' = json_of doc
    ∧ list_ doc = [rec1; rec3]
    ∧ Rec.id rec1 = py "1" ∧ Rec.id rec3 = py "3"
    ∧ Info.region_time_zone (info doc) = 8
    ∧ py "警告: 未知的卡池类型 999, 跳过记录 2" ∈ stdout s'.
Proof.
  apply (proj2 (export_list_of_mapped_rows unicode_tables)
           (a_world (db_table three_rows)) None three_rows
           (a_row 800000001 1 100) (a_row 800000001 2 999)
           (a_row 800000001 3 301) (initial absent)).
  - reflexivity.
  - reflexivity.
  - reflexivity.
  - unfold three_rows. apply Permutation_cons_append.
  - left. reflexivity.
  - repeat split; reflexivity.
  - repeat split; reflexivity.
  - repeat split; reflexivity.
Defined.

Lemma exported_pool_codes_witness :
  ∃ (rows : list row) (k : Z),
    db (a_world (db_table [a_row 800000001 1 400; a_row 800000001 2 302]))
    = db_table rows
    ∧ resolved_key (Some 800000001) rows = Some k
    ∧ Forall2 (λ r rec,
                 if decide (QueryType r = 400) then
                   Rec.uigf_gacha_type rec = py "301"
                   ∧ Rec.gacha_type rec = py "400"
                   ∧ Rec.uigf_gacha_type rec ≠ Rec.gacha_type rec
                 else
                   QueryType r ∈ [100; 200; 301; 302; 500]
                   ∧ Rec.uigf_gacha_type rec = str_int (QueryType r)
                   ∧ Rec.gacha_type rec = str_int (QueryType r))
        (filter (λ r, QueryType r ∈ pool_codes) (selected k rows))
        (list_ (run_document
                  (a_world (db_table [a_row 800000001 1 400;
                                      a_row 800000001 2 302]))
                  (Some 800000001))).
Proof.
  apply (exported_pool_codes unicode_tables
           (a_world (db_table [a_row 800000001 1 400; a_row 800000001 2 302]))
           (Some 800000001) (initial absent)
           (run_state
              (a_world (db_table [a_row 800000001 1 400;
                                  a_row 800000001 2 302]))
              (Some 800000001))).
  vm_compute. reflexivity.
Defined.

Lemma export_twice_same_list_witness :
  let d1 := run_document (a_world (db_table three_rows)) (Some 800000001) in
  let d2 :=
    run_document (a_later_world (db_table three_rows)) (Some 800000001) in
  list_ d1 = list_ d2
  ∧ Info.uid (info d1) = Info.uid (info d2)
  ∧ Info.lang (info d1) = Info.lang (info d2)
  ∧ Info.export_app (info d1) = Info.export_app (info d2)
  ∧ Info.export_app_version (info d1) = Info.export_app_version (info d2)
  ∧ Info.uigf_version (info d1) = Info.uigf_version (info d2)
  ∧ Info.region_time_zone (info d1) = Info.region_time_zone (info d2)
  ∧ out_file (run_state (a_world (db_table three_rows)) (Some 800000001))
    = json_of d1
  ∧ out_file (run_state (a_later_world (db_table three_rows))
                (Some 800000001))
    = json_of d2.
Proof.
  apply (export_twice_same_list unicode_tables
           (a_world (db_table three_rows))
           (a_later_world (db_table three_rows)) 800000001
           (initial absent) (initial absent)).
  - reflexivity.
  - vm_compute. reflexivity.
  - vm_compute. reflexivity.
Defined.

Lemma export_no_records_reported_witness :
  ∃ s' : state,
    export_gacha_data (U := unicode_tables)
      (a_world (db_table [a_row 800000001 1 100])) (Some 600000001)
      (initial absent)
    = (Return None, s')
    ∧ stdout s' = [py "错误: 未找到 UID 600000001 的抽卡记录"]
    ∧ stderr s' = []
    ∧ (Some 600000001 = None →
       main (U := unicode_tables)
         (a_world (db_table [a_row 800000001 1 100])) (initial absent)
       = (0, s'))
    ∧ (main (U := unicode_tables)
         (a_world (db_table [a_row 800000001 1 100])) (initial absent)).1
      = 0.
Proof.
  apply (export_no_records_reported unicode_tables
           (a_world (db_table [a_row 800000001 1 100])) (Some 600000001)
           [a_row 800000001 1 100] (initial absent)).
  - reflexivity.
  - vm_compute. reflexivity.
Defined.

Lemma export_no_records_keeps_file_witness :
  ∃ (s' : state) (evs : list io_event),
    export_gacha_data (U := unicode_tables)
      (a_world (db_table [])) None (initial (content (py "{}")))
    = (Return None, s')
    ∧ out_file s' = content (py "{}")
    ∧ io_log s' = evs
    ∧ (ev_open ∉ evs) ∧ (ev_write ∉ evs)
    ∧ file_open s' = false
    ∧ conn_open s' = false.
Proof.
  apply (export_no_records_keeps_file (U := unicode_tables)
           (a_world (db_table [])) None [] (initial (content (py "{}")))).
  - reflexivity.
  - reflexivity.
Defined.

(** * Further properties *)

(** ** The offset removed by [parse_timestamp] *)

Section OffsetFacts.
Context {U : UnicodeData}.

Lemma isdecimal_not_LF (c : char) : isdecimal c = true → c ≠ LF.
Proof.
  intros H ->. rewrite isdecimal_ascii in H by (unfold LF; lia). done.
Qed.

Lemma re_match_tz_suffix_shape (t : str) :
  LF ∉ t →
  re_match tz_suffix t = if has_shape offset_shape t then Some 6%nat else None.
Proof.
  intros HLF. unfold tz_suffix, offset_shape, is_sign, is_chr.
  destruct t as [|c1 [|c2 [|c3 [|c4 [|c5 [|c6 [|c7 t]]]]]]];
    cbn [re_match re_item_accepts existsb has_shape at_eos fmap option_fmap
         option_map];
    rewrite ?orb_false_r, ?andb_false_r, ?andb_true_r; try done.
  all: repeat match goal with
       | |- context [if ?b then _ else _] =>
           lazymatch b with
           | context [if _ then _ else _] => fail
           | _ => destruct b eqn:?
           end
       end; cbn [fmap option_fmap option_map andb]; try done.
  match goal with H : (_ =? LF)%N = true |- _ => apply N.eqb_eq in H; subst end.
  exfalso. apply HLF. rewrite !elem_of_cons. tauto.
Qed.

Lemma re_sub_from_skip_all (p : list re_item) (t : str) :
  ∀ k, (length t ≤ k)%nat → re_sub_from p k t = [].
Proof.
  induction t as [|c t IH]; intros k Hk; [done|].
  destruct k as [|k]; simpl in Hk; [lia|]. cbn [re_sub_from]. apply IH. lia.
Qed.

Lemma has_shape_offset_no_LF (o : str) :
  has_shape offset_shape o = true → LF ∉ o.
Proof.
  intros H. pose proof (has_shape_length _ _ H) as Hlen.
  unfold offset_shape in *.
  destruct o as [|c1 [|c2 [|c3 [|c4 [|c5 [|c6 [|c7 o]]]]]]]; try done.
  cbn [has_shape] in H. rewrite andb_true_r in H.
  repeat (apply andb_true_iff in H as [? H]).
  unfold is_sign, is_chr in *.
  rewrite !elem_of_cons, elem_of_nil.
  intros [<-|[<-|[<-|[<-|[<-|[<-|[]]]]]]];
    first [by eapply (isdecimal_not_LF LF) | by vm_compute in * ].
Qed.

(** A trailing offset is removed, and nothing else. *)
Lemma re_sub_offset (b o : str) :
  LF ∉ b → has_shape offset_shape o = true → re_sub tz_suffix (b ++ o) = b.
Proof.
  intros Hb Ho. pose proof (has_shape_offset_no_LF o Ho) as HLF.
  pose proof (has_shape_length _ _ Ho) as Hlen. simpl in Hlen.
  unfold re_sub. induction b as [|c b IH].
  - destruct o as [|c o]; [done|]. cbn [app re_sub_from].
    rewrite re_match_tz_suffix_shape, Ho by done.
    apply re_sub_from_skip_all. simpl in Hlen. lia.
  - cbn [app re_sub_from].
    rewrite re_match_tz_suffix_shape.
    2:{ change (LF ∉ (c :: b) ++ o). rewrite elem_of_app. tauto. }
    destruct (has_shape offset_shape (c :: b ++ o)) eqn:E.
    { apply has_shape_length in E. simpl in E. rewrite length_app in E. lia. }
    f_equal. apply IH. intros H. apply Hb. by right.
Qed.

Lemma re_sub_no_offset (t : str) :
  LF ∉ t →
  (∀ b o, t = b ++ o → has_shape offset_shape o = false) →
  re_sub tz_suffix t = t.
Proof.
  unfold re_sub. induction t as [|c t IH]; intros HLF Hno; [done|].
  cbn [re_sub_from]. rewrite re_match_tz_suffix_shape by done.
  rewrite (Hno [] (c :: t)) by done. f_equal. apply IH.
  - intros H. apply HLF. by right.
  - intros b o ->. by apply (Hno (c :: b) o).
Qed.

Lemma re_sub_strip_offset (t : str) :
  LF ∉ t → re_sub tz_suffix t = strip_offset t.
Proof.
  intros HLF. unfold strip_offset.
  destruct (has_shape offset_shape (drop (length t - 6) t)) eqn:E.
  - rewrite <- (take_drop (length t - 6) t) at 1.
    apply re_sub_offset; [|done].
    intros H. apply HLF. rewrite <- (take_drop (length t - 6) t).
    apply elem_of_app. by left.
  - apply re_sub_no_offset; [done|]. intros b o -> .
    destruct (has_shape offset_shape o) eqn:Ho; [|done].
    pose proof (has_shape_length _ _ Ho) as Hlen. simpl in Hlen.
    rewrite length_app, Hlen in E.
    replace (length b + 6 - 6)%nat with (length b) in E by lia.
    rewrite drop_app_length in E. congruence.
Qed.

(** X1: [parse_timestamp] is: drop the line feeds, drop the last six
    characters when they are a sign, two digits, a colon and two digits,
    then strip the white space at both ends.  The scan of [re.sub] removes
    nothing else. *)
Theorem parse_timestamp_strip_offset (s : str) :
  parse_timestamp s = strip (strip_offset (remove_char LF s)).
Proof.
  unfold parse_timestamp. f_equal. apply re_sub_strip_offset.
  apply not_elem_of_remove_char.
Qed.

Lemma clean_shape_ends (c : str) :
  has_shape clean_shape c = true →
  (LF ∉ c)
  ∧ ∃ a m z, c = a :: m ++ [z]
             ∧ ascii_isdecimal a = true ∧ ascii_isdecimal z = true.
Proof.
  intros H. pose proof (has_shape_length _ _ H) as Hlen.
  unfold clean_shape in H.
  destruct c as [|y1 [|y2 [|y3 [|y4 [|p1 [|m1 [|m2 [|p2 [|d1 [|d2 [|sp [|h1 [|h2 [|q1 [|n1 [|n2 [|q2 [|s1 [|s2 [|? ?]]]]]]]]]]]]]]]]]]]]; try done.
  clear Hlen. cbn [has_shape] in H. unfold is_chr in H.
  repeat (apply andb_true_iff in H as [? H]). clear H.
  repeat match goal with
  | H : (_ =? _)%N = true |- _ => apply N.eqb_eq in H; subst
  end.
  split.
  - rewrite !elem_of_cons, elem_of_nil.
    intros Hin. decompose [or] Hin; try done;
      match goal with E : LF = ?x, H : ascii_isdecimal ?x = true |- _ =>
        rewrite <- E in H; done end.
  - by exists y1, [y2; y3; y4; 45; m1; m2; 45; d1; d2; 32; h1; h2; 58;
                 n1; n2; 58; s1]%N, s2.
Qed.

(** X2: a string that, line feeds apart, is a timestamp of the form
    [YYYY-MM-DD HH:MM:SS] followed by an offset (sign, two digits, colon, two
    digits) is normalized to that timestamp. *)
Theorem parse_timestamp_clean_offset (s c o : str) :
  remove_char LF s = c ++ o →
  has_shape clean_shape c = true →
  has_shape offset_shape o = true →
  parse_timestamp s = c.
Proof.
  intros Hs Hc Ho. unfold parse_timestamp. rewrite Hs.
  destruct (clean_shape_ends c Hc) as (HLF & a & m & z & -> & Ha & Hz).
  rewrite re_sub_offset by done.
  apply strip_id; by apply digit_not_space.
Qed.

Lemma lstrip_head (s : str) (c : char) :
  head (lstrip s) = Some c → isspace c = false.
Proof.
  induction s as [|x s IH]; [done|]. cbn [lstrip].
  destruct (isspace x) eqn:E; [done|]. by intros [= <-].
Qed.

Lemma lstrip_app_keep (m : str) (c : char) :
  isspace c = false → ∃ k, lstrip (m ++ [c]) = k ++ [c].
Proof.
  intros Hc. induction m as [|x m IH].
  - exists []. cbn [app lstrip]. by rewrite Hc.
  - cbn [app lstrip]. destruct (isspace x); [done|]. by exists (x :: m).
Qed.

Lemma last_rev (l : list char) : last (rev l) = head l.
Proof.
  destruct l as [|x l]; [done|]. cbn [rev head]. apply last_snoc.
Qed.

Lemma head_rev (l : list char) : head (rev l) = last l.
Proof. rewrite <- (rev_involutive l) at 2. by rewrite last_rev. Qed.

Lemma strip_head_last (s : str) (c : char) :
  head (strip s) = Some c ∨ last (strip s) = Some c → isspace c = false.
Proof.
  unfold strip, rstrip. intros [H|H].
  - rewrite head_rev in H.
    destruct (lstrip s) as [|a l] eqn:E; [done|].
    assert (isspace a = false) as Ha by (apply (lstrip_head s); by rewrite E).
    cbn [rev] in H. destruct (lstrip_app_keep (rev l) a Ha) as [k Hk].
    rewrite Hk, last_snoc in H. by injection H as <-.
  - rewrite last_rev in H. by apply lstrip_head in H.
Qed.

(** X3: the result of [parse_timestamp] neither begins nor ends with a
    white space character. *)
Theorem parse_timestamp_no_outer_space (s : str) (c : char) :
  head (parse_timestamp s) = Some c ∨ last (parse_timestamp s) = Some c →
  isspace c = false.
Proof. apply strip_head_last. Qed.
End OffsetFacts.

(** ** The time zone of an identity key *)

Lemma of_uint_acc_bounds (l : Decimal.uint) :
  ∀ acc : positive,
    Z.pos acc * 10 ^ Z.of_nat (Decimal.nb_digits l)
    ≤ Z.pos (Pos.of_uint_acc l acc)
    < (Z.pos acc + 1) * 10 ^ Z.of_nat (Decimal.nb_digits l).
Proof.
  induction l as [|l IH|l IH|l IH|l IH|l IH|l IH|l IH|l IH|l IH|l IH];
    intros acc; cbn [Pos.of_uint_acc Decimal.nb_digits]; [lia|..].
  all: rewrite Nat2Z.inj_succ, Z.pow_succ_r by lia.
  all: match goal with
       | IH : ∀ a : positive, _ |- context [Pos.of_uint_acc ?d ?a] =>
           specialize (IH a);
           assert (0 < 10 ^ Z.of_nat (Decimal.nb_digits d))
             by (apply Z.pow_pos_nonneg; lia)
       end.
  all: change (Pos.of_uint_acc ?x (Pos.mul _ ?y)) with (Pos.of_uint_acc x (10 * y)%positive) in *; nia.
Qed.

Lemma nzhead_not_D0 (l l' : Decimal.uint) : Decimal.nzhead l ≠ Decimal.D0 l'.
Proof. induction l; simpl; congruence. Qed.

Lemma to_uint_uncons (p : positive) :
  ∃ k l, uint_uncons (Pos.to_uint p) = Some (k, l)
         ∧ 1 ≤ k ≤ 9
         ∧ k * 10 ^ Z.of_nat (Decimal.nb_digits l) ≤ Z.pos p
           < (k + 1) * 10 ^ Z.of_nat (Decimal.nb_digits l).
Proof.
  pose proof (DecimalPos.Unsigned.of_to p) as Hof.
  pose proof (DecimalPos.Unsigned.to_of (Pos.to_uint p)) as Hto. rewrite Hof in Hto.
  cbn [N.to_uint] in Hto.
  pose proof (DecimalPos.Unsigned.to_uint_nonzero p) as Hnz.
  pose proof (DecimalPos.Unsigned.to_uint_nonnil p) as Hnn.
  destruct (Pos.to_uint p) as [|l|l|l|l|l|l|l|l|l|l] eqn:E; [done|..].
  { exfalso. rewrite DecimalFacts.unorm_D0 in Hto. unfold Decimal.unorm in Hto.
    destruct (Decimal.nzhead l) eqn:En; try congruence.
    by eapply nzhead_not_D0. }
  all: eexists _, l; split; [reflexivity|]; split; [lia|].
  all: cbn [Pos.of_uint] in Hof; injection Hof as <-.
  all: apply of_uint_acc_bounds.
Qed.

Lemma str_int_pos_head (p : positive) (k : Z) (l : Decimal.uint) :
  uint_uncons (Pos.to_uint p) = Some (k, l) →
  head (str_int (Z.pos p)) = Some (Z.to_N (48 + k)).
Proof.
  unfold str_int. cbn [Z.to_int NilZero.string_of_int].
  destruct (Pos.to_uint p); cbn [uint_uncons]; intros [= <- <-]; reflexivity.
Qed.

Lemma str_int_nonpos_head (n : Z) (k : Z) :
  n ≤ 0 → 1 ≤ k ≤ 9 → head (str_int n) ≠ Some (Z.to_N (48 + k)).
Proof.
  intros Hn Hk. destruct n as [|p|p]; [|lia|].
  - change (str_int 0) with [48%N]. cbn [head]. intros [= H]. lia.
  - assert (head (str_int (Z.neg p)) = Some 45%N) as -> by reflexivity.
    intros [= H]. lia.
Qed.

Lemma startswith_one (s : str) (c : char) :
  startswith s [c] = true ↔ head s = Some c.
Proof.
  destruct s as [|x s]; cbn [startswith head]; [done|].
  rewrite andb_true_iff, N.eqb_eq.
  split; [by intros [-> _]|intros [= ->]; by destruct s].
Qed.

Lemma leading_digit_unique (k j n : Z) (m i : nat) :
  1 ≤ k ≤ 9 → 1 ≤ j ≤ 9 →
  k * 10 ^ Z.of_nat m ≤ n < (k + 1) * 10 ^ Z.of_nat m →
  j * 10 ^ Z.of_nat i ≤ n < (j + 1) * 10 ^ Z.of_nat i →
  k = j.
Proof.
  intros Hk Hj Hm Hi.
  assert (0 < 10 ^ Z.of_nat m) as Pm by (apply Z.pow_pos_nonneg; lia).
  assert (0 < 10 ^ Z.of_nat i) as Pi by (apply Z.pow_pos_nonneg; lia).
  assert (m = i) as ->.
  { destruct (Nat.lt_trichotomy m i) as [Hlt|[->|Hlt]]; [|done|]; exfalso.
    - assert (10 ^ Z.of_nat (S m) ≤ 10 ^ Z.of_nat i)
        by (apply Z.pow_le_mono_r; lia).
      rewrite Nat2Z.inj_succ, Z.pow_succ_r in * by lia. nia.
    - assert (10 ^ Z.of_nat (S i) ≤ 10 ^ Z.of_nat m)
        by (apply Z.pow_le_mono_r; lia).
      rewrite Nat2Z.inj_succ, Z.pow_succ_r in * by lia. nia. }
  nia.
Qed.

Lemma startswith_digit (uid k : Z) :
  1 ≤ k ≤ 9 →
  startswith (str_int uid) [Z.to_N (48 + k)] = true ↔ has_leading_digit k uid.
Proof.
  intros Hk. rewrite startswith_one. split.
  - intros Hhead. destruct (Z_le_gt_dec uid 0) as [Hle|Hgt].
    { by apply (str_int_nonpos_head uid k) in Hhead. }
    destruct uid as [|p|p]; try lia.
    destruct (to_uint_uncons p) as (j & l & Hun & Hj & Hb).
    rewrite (str_int_pos_head p j l Hun) in Hhead.
    assert (j = k) as -> by (injection Hhead; lia).
    by exists (Decimal.nb_digits l).
  - intros [m Hm].
    assert (0 < 10 ^ Z.of_nat m) as Pm by (apply Z.pow_pos_nonneg; lia).
    destruct uid as [|p|p]; try nia.
    destruct (to_uint_uncons p) as (j & l & Hun & Hj & Hb).
    rewrite (str_int_pos_head p j l Hun).
    by rewrite (leading_digit_unique k j _ _ _ Hk Hj Hm Hb).
Qed.

(** X4: [get_timezone_from_uid] gives -5 exactly for the integers whose
    decimal writing begins with 6, 1 exactly for those that begin with 7,
    and 8 for all others (zero and the negative integers among them). *)
Theorem get_timezone_from_uid_ranges (uid : Z) :
  (get_timezone_from_uid uid = -5 ↔ has_leading_digit 6 uid)
  ∧ (get_timezone_from_uid uid = 1 ↔ has_leading_digit 7 uid)
  ∧ (get_timezone_from_uid uid = 8 ↔
     ¬ has_leading_digit 6 uid ∧ ¬ has_leading_digit 7 uid).
Proof.
  pose proof (startswith_digit uid 6 ltac:(lia)) as H6.
  pose proof (startswith_digit uid 7 ltac:(lia)) as H7.
  assert (has_leading_digit 6 uid → has_leading_digit 7 uid → False) as Hx.
  { intros [m Hm] [i Hi].
    pose proof (leading_digit_unique 6 7 uid m i ltac:(lia) ltac:(lia) Hm Hi).
    lia. }
  unfold get_timezone_from_uid.
  change (py "6") with [Z.to_N (48 + 6)]. change (py "7") with [Z.to_N (48 + 7)].
  destruct (startswith (str_int uid) [Z.to_N (48 + 6)]) eqn:E6;
    destruct (startswith (str_int uid) [Z.to_N (48 + 7)]) eqn:E7.
  all: repeat split; try done; try tauto; try (intros; exfalso; tauto).
  all: try (intros _; split; intros H%H6 || intros H%H7; done).
Qed.

(** ** [str] of an integer *)

Lemma py_string_of_uint (d : Decimal.uint) :
  py (NilEmpty.string_of_uint d) = uint_codes d.
Proof.
  unfold py. induction d; cbn [NilEmpty.string_of_uint uint_codes]; [done|..].
  all: cbn [list_ascii_of_string map]; rewrite <- IHd; reflexivity.
Qed.

Lemma str_int_pos (p : positive) :
  str_int (Z.pos p) = uint_codes (Pos.to_uint p).
Proof.
  unfold str_int. cbn [Z.to_int NilZero.string_of_int].
  rewrite <- py_string_of_uint. f_equal. unfold NilZero.string_of_uint.
  pose proof (DecimalPos.Unsigned.to_uint_nonnil p).
  by destruct (Pos.to_uint p).
Qed.

Lemma str_int_neg (p : positive) :
  str_int (Z.neg p) = 45%N :: uint_codes (Pos.to_uint p).
Proof.
  rewrite <- str_int_pos. unfold str_int.
  cbn [Z.to_int NilZero.string_of_int]. reflexivity.
Qed.

Lemma uint_codes_inj (d d' : Decimal.uint) :
  uint_codes d = uint_codes d' → d = d'.
Proof.
  revert d'. induction d; intros d'; destruct d';
    cbn [uint_codes]; intros H; try done; injection H as H;
    f_equal; by apply IHd.
Qed.

Lemma uint_codes_digits (d : Decimal.uint) :
  Forall (λ c, (48 ≤ c ≤ 57)%N) (uint_codes d).
Proof. induction d; cbn [uint_codes]; constructor; (lia || done). Qed.

(** [str] is injective: the decimal string determines the integer. *)
Lemma str_int_inj (a b : Z) : str_int a = str_int b → a = b.
Proof.
  assert (∀ p, str_int (Z.pos p) ≠ [48%N]) as Hzero.
  { intros p. rewrite str_int_pos. change [48%N] with (uint_codes Decimal.zero).
    intros H%uint_codes_inj. by apply (DecimalPos.Unsigned.to_uint_nonzero p). }
  assert (∀ p q, str_int (Z.pos p) ≠ str_int (Z.neg q)) as Hsign.
  { intros p q. rewrite str_int_pos, str_int_neg.
    pose proof (uint_codes_digits (Pos.to_uint p)) as Hd.
    destruct (uint_codes (Pos.to_uint p)) as [|c l]; [done|].
    intros [= -> _]. apply Forall_cons in Hd as [Hd _]. lia. }
  destruct a as [|p|p], b as [|q|q]; intros H; try done.
  all: first
    [ by apply eq_sym, Hzero in H
    | by apply Hzero in H
    | by apply Hsign in H
    | by apply eq_sym, Hsign in H
    | rewrite !str_int_pos in H;
      apply uint_codes_inj, DecimalPos.Unsigned.to_uint_inj in H; by subst
    | rewrite !str_int_neg in H; injection H as H;
      apply uint_codes_inj, DecimalPos.Unsigned.to_uint_inj in H; by subst ].
Qed.

(** ** Every run of [export_gacha_data] *)

(** Reduction of the monadic code and of the state updates, leaving the
    string literals as they are. *)
Ltac run_step :=
  cbn [head fmap option_fmap option_map resolved_key].

Ltac abstract_strings :=
  repeat match goal with
  | |- context [py ?x] =>
      let lit := fresh "lit" in generalize (py x); intro lit
  end.

Ltac state_eq :=
  unfold no_records_message, exporting_line, summary_lines, document,
    store_events, file_events;
  abstract_strings;
  cbv [final_state log set_conn set_file set_out add_stdout add_stdouts
       conn_open file_open stdout stderr out_file io_log];
  rewrite <- ?app_assoc, ?app_nil_r; reflexivity.

Section RunFacts.
Context {U : UnicodeData}.
Variable w : world.

Lemma final_state_id (s : state) :
  final_state s (conn_open s) (file_open s) [] (out_file s) [] = s.
Proof. destruct s. unfold final_state. simpl. by rewrite !app_nil_r. Qed.

(** The outcome and the final state of a run, case by case. *)
Lemma export_gacha_data_run (uid : option Z) (s : state) :
  export_gacha_data w uid s =
    match db w with
    | db_unopenable =>
        (Raise (OperationalError (py "unable to open database file")), s)
    | db_no_table =>
        (Raise (OperationalError (py "no such table: gacha_items")),
         final_state s true (file_open s) [] (out_file s)
           [ev_connect; ev_query])
    | db_table rows =>
        match resolved_key uid rows with
        | None =>
            (Return None,
             final_state s false (file_open s) [no_records_message None]
               (out_file s) [ev_connect; ev_query; ev_conn_close])
        | Some k =>
            match selected k rows with
            | [] =>
                (Return None,
                 final_state s false (file_open s)
                   [no_records_message (Some k)] (out_file s)
                   (store_events uid))
            | (_ :: _) as sel =>
                let gacha_list := omap record_of sel in
                let doc := document w k gacha_list in
                let lines := exporting_line k sel :: row_warnings sel in
                match open_error w, dump_error w with
                | Some msg, _ =>
                    (Raise (OSError msg),
                     final_state s false (file_open s) lines (out_file s)
                       (store_events uid))
                | None, Some msg =>
                    (Raise (OSError msg),
                     final_state s false false lines (json_partial doc)
                       (store_events uid ++ file_events))
                | None, None =>
                    (Return (Some doc),
                     final_state s false false
                       (lines ++ summary_lines w k gacha_list) (json_of doc)
                       (store_events uid ++ file_events))
                end
            end
        end
    end.
Proof.
  run_export. destruct s as [co fo out err f lg].
  destruct (db w) as [| |rows]; [abstract_strings; reflexivity|..].
  { destruct uid; run_step; state_eq. }
  destruct uid as [u|]; run_step.
  - destruct (selected u rows) as [|r sel]; run_step; [state_eq|].
    rewrite build_list_spec; run_step.
    destruct (open_error w), (dump_error w); run_step; state_eq.
  - destruct rows as [|r0 rows]; run_step; [state_eq|].
    destruct (selected (ArchiveId r0) (r0 :: rows)) as [|r sel]; run_step;
      [state_eq|].
    rewrite build_list_spec; run_step.
    destruct (open_error w), (dump_error w); run_step; state_eq.
Qed.

End RunFacts.

Section RunProperties.
Context {U : UnicodeData}.



(** Every selected row is either exported or warned about. *)
Lemma records_and_warnings (sel : list row) :
  (length (omap record_of sel) + length (row_warnings sel))%nat = length sel.
Proof.
  unfold row_warnings, record_of.
  induction sel as [|r sel IH]; [done|]. cbn [omap list_omap length].
  destruct (GACHA_TYPE_MAP !! QueryType r); cbn [fmap option_fmap option_map length]; lia.
Qed.

End RunProperties.





(** X12: the lines of a run that returns a document are the announcement,
    the warnings and the summary; the number of rows of the key is the
    number of records exported plus the number of warnings printed. *)
Theorem export_gacha_data_accounting :
  ∀ (U : UnicodeData) (w : world) (uid : option Z) (s s' : state)
    (doc : uigf_data),
    export_gacha_data w uid s = (Return (Some doc), s') →
    ∃ (rows : list row) (k : Z),
      db w = db_table rows
      ∧ resolved_key uid rows = Some k
      ∧ stdout s'
        = stdout s ++ exporting_line k (selected k rows)
            :: row_warnings (selected k rows)
            ++ summary_lines w k (list_ doc)
      ∧ length (filter (λ r, ArchiveId r = k) rows)
        = (length (list_ doc) + length (row_warnings (selected k rows)))%nat.
Proof.
  intros U w uid s s' doc. rewrite export_gacha_data_run.
  destruct (db w) as [| |rows] eqn:Hdb; [done..|].
  destruct (resolved_key uid rows) as [k|] eqn:Hk; [|done].
  pose proof (records_and_warnings (selected k rows)) as Hacc.
  pose proof (selected_Permutation k rows) as Hperm.
  destruct (selected k rows) as [|r sel] eqn:Hsel; [done|].
  destruct (open_error w) as [mo|], (dump_error w) as [md|];
    intros [= <- <-].
  exists rows, k. rewrite Hsel.
  split; [done|]. split; [done|]. split; [reflexivity|].
  transitivity (length (r :: sel)).
  - symmetry. by apply Permutation_length.
  - symmetry. exact Hacc.
Qed.

(** ** The records exported *)

Lemma get_rank_type_cases (item_id : Z) :
  get_rank_type item_id
  = if between 10000 item_id 19999 then py "5" else py "3".
Proof.
  unfold get_rank_type.
  destruct (between 10000 item_id 19999) eqn:E; [done|].
  assert (¬ 10000 ≤ item_id ≤ 19999) as E'
    by (rewrite <- between_spec, E; done).
  destruct (between 11000 item_id 16999) eqn:E1;
    [apply between_spec in E1; lia|].
  destruct (between 14000 item_id 14999) eqn:E2;
    [apply between_spec in E2; lia|].
  by destruct (between 15000 item_id 15999).
Qed.

(** X5: [get_rank_type] gives "5" exactly on [10000,19999] and "3"
    everywhere else; it never gives "4". *)
Theorem get_rank_type_values :
  ∀ item_id : Z,
    (get_rank_type item_id = py "5" ↔ 10000 ≤ item_id ≤ 19999)
    ∧ (get_rank_type item_id = py "3" ↔ ¬ 10000 ≤ item_id ≤ 19999)
    ∧ get_rank_type item_id ≠ py "4".
Proof.
  intros item_id. rewrite get_rank_type_cases.
  destruct (between 10000 item_id 19999) eqn:E.
  - apply between_spec in E. repeat split; try done; tauto.
  - assert (¬ 10000 ≤ item_id ≤ 19999) as E'
      by (rewrite <- between_spec, E; done).
    repeat split; try done; tauto.
Qed.

Section RecordFacts.
Context {U : UnicodeData}.

Lemma elem_of_omap_record_of (sel : list row) (rec : Rec.t) :
  rec ∈ omap record_of sel →
  ∃ r gacha_info,
    r ∈ sel ∧ GACHA_TYPE_MAP !! QueryType r = Some gacha_info
    ∧ rec = make_record r gacha_info.
Proof.
  rewrite list_elem_of_omap. intros (r & Hr & Hrec). unfold record_of in Hrec.
  destruct (GACHA_TYPE_MAP !! QueryType r) as [gi|] eqn:E; [|done].
  injection Hrec as <-. by exists r, gi.
Qed.

Lemma omap_record_of_ids (sel : list row) :
  Rec.id <$> omap record_of sel
  = str_int <$> (Id <$> filter (λ r, QueryType r ∈ pool_codes) sel).
Proof.
  induction sel as [|r sel IH]; [done|].
  rewrite filter_cons. cbn [omap list_omap]. unfold record_of at 1.
  destruct (decide (QueryType r ∈ pool_codes)) as [Hin|Hout].
  - apply lookup_is_Some_codes in Hin as [gi Hgi]. rewrite Hgi.
    cbn [fmap option_fmap option_map list_fmap]. by rewrite <- IH.
  - apply lookup_None_codes in Hout. by rewrite Hout.
Qed.

End RecordFacts.

(** X6: every record of an exported document is well formed: the count is
    "1", the time has no line feed and no white space at its ends, the pool
    codes are among the fixed ones ([uigf_gacha_type] is never "400"), the
    item is a character of rank "5" or a weapon of rank "3", and its name is
    the category, an underscore and the item id. *)
Theorem exported_records_well_formed :
  ∀ (U : UnicodeData) (w : world) (uid : option Z) (s s' : state)
    (doc : uigf_data),
    export_gacha_data w uid s = (Return (Some doc), s') →
    Forall (λ rec,
              Rec.count rec = py "1"
              ∧ (LF ∉ Rec.time rec)
              ∧ (∀ c, head (Rec.time rec) = Some c ∨ last (Rec.time rec) = Some c
                      → isspace c = false)
              ∧ Rec.uigf_gacha_type rec
                ∈ [py "100"; py "200"; py "301"; py "302"; py "500"]
              ∧ Rec.gacha_type rec
                ∈ [py "100"; py "200"; py "301"; py "302"; py "400"; py "500"]
              ∧ (Rec.item_type rec = character ∧ Rec.rank_type rec = py "5"
                 ∨ Rec.item_type rec = weapon ∧ Rec.rank_type rec = py "3")
              ∧ Rec.name rec
                = Rec.item_type rec ++ py "_" ++ Rec.item_id rec)
      (list_ doc).
Proof.
  intros U w uid s s' doc Hrun.
  destruct (export_returns_document w uid s s' doc Hrun)
    as (rows & k & _ & _ & _ & -> & _ & _).
  apply Forall_forall. intros rec Hrec. cbn [list_ document] in Hrec.
  apply elem_of_omap_record_of in Hrec as (r & gi & _ & Hgi & ->).
  cbn [make_record Rec.count Rec.time Rec.uigf_gacha_type Rec.gacha_type
       Rec.item_type Rec.rank_type Rec.name Rec.item_id].
  split; [done|]. split.
  { intros H%elem_of_parse_timestamp. by apply not_elem_of_remove_char in H. }
  split; [intros c; apply strip_head_last|].
  rewrite GACHA_TYPE_MAP_lookup in Hgi.
  assert (Pool.uigf_gacha_type gi
            ∈ [py "100"; py "200"; py "301"; py "302"; py "500"]
          ∧ Pool.gacha_type gi
            ∈ [py "100"; py "200"; py "301"; py "302"; py "400"; py "500"])
    as [Hu Hg].
  { destruct (decide (QueryType r = 400)).
    { injection Hgi as <-. simpl. rewrite !elem_of_cons. tauto. }
    destruct (decide (QueryType r ∈ [100; 200; 301; 302; 500])) as [Hin|];
      [|done].
    injection Hgi as <-. simpl. rewrite !elem_of_cons, elem_of_nil in Hin.
    destruct Hin as [->|[->|[->|[->|[->|[]]]]]];
      rewrite !elem_of_cons; tauto. }
  split; [done|]. split; [done|].
  unfold get_item_info. rewrite get_rank_type_cases.
  destruct (between 10000 (ItemId r) 19999);
    cbn [Item.item_type Item.rank_type Item.name]; split; try done.
  - by left.
  - by right.
Qed.

(** X7: distinct record ids under the key give distinct [id] strings in the
    exported list ([str] of an integer is injective). *)
Theorem exported_ids_distinct :
  ∀ (U : UnicodeData) (w : world) (uid : option Z) (s s' : state)
    (doc : uigf_data) (rows : list row) (k : Z),
    export_gacha_data w uid s = (Return (Some doc), s') →
    db w = db_table rows →
    resolved_key uid rows = Some k →
    NoDup (Id <$> filter (λ r, ArchiveId r = k) rows) →
    NoDup (Rec.id <$> list_ doc).
Proof.
  intros U w uid s s' doc rows k Hrun Hdb Hk Hnd.
  destruct (export_returns_document w uid s s' doc Hrun)
    as (rows' & k' & Hdb' & Hk' & _ & -> & _ & _).
  assert (rows' = rows) as -> by congruence.
  assert (k' = k) as -> by congruence.
  cbn [list_ document]. rewrite omap_record_of_ids.
  apply NoDup_fmap_2; [intros a b; apply str_int_inj|].
  assert (NoDup (Id <$> selected k rows)) as Hsel
    by by rewrite selected_Permutation.
  revert Hsel. generalize (selected k rows). intros sel.
  induction sel as [|r sel IH]; [done|].
  rewrite filter_cons. cbn [fmap list_fmap]. intros [Hr Hsel]%NoDup_cons.
  destruct (decide (QueryType r ∈ pool_codes)); [|by apply IH].
  cbn [fmap list_fmap]. apply NoDup_cons. split; [|by apply IH].
  intros Hin. apply Hr. apply list_elem_of_fmap in Hin as (x & -> & Hx).
  apply list_elem_of_fmap. exists x. split; [done|].
  by apply list_elem_of_filter in Hx as [_ ?].
Qed.



(** ** The script *)


(** ** Storage order *)

Lemma NoDup_fmap_eq {A B} (f : A → B) (l : list A) (x y : A) :
  NoDup (f <$> l) → x ∈ l → y ∈ l → f x = f y → x = y.
Proof.
  induction l as [|a l IH]; [by intros _ ?%elem_of_nil|].
  cbn [fmap list_fmap]. intros [Ha Hl]%NoDup_cons Hx Hy Hf.
  apply elem_of_cons in Hx as [->|Hx]; apply elem_of_cons in Hy as [->|Hy].
  - done.
  - exfalso. apply Ha. rewrite Hf. apply list_elem_of_fmap. eauto.
  - exfalso. apply Ha. rewrite <- Hf. apply list_elem_of_fmap. eauto.
  - by apply IH.
Qed.

Lemma selected_Permutation_eq (k : Z) (rows rows' : list row) :
  rows ≡ₚ rows' →
  NoDup (Id <$> filter (λ r, ArchiveId r = k) rows) →
  selected k rows = selected k rows'.
Proof.
  intros Hperm Hnd. apply (StronglySorted_unique_strong Id_le).
  - intros x1 x2 Hx1 Hx2 H12 H21. unfold Id_le in *.
    rewrite selected_Permutation in Hx1.
    rewrite selected_Permutation, <- Hperm in Hx2.
    apply (NoDup_fmap_eq Id _ x1 x2 Hnd Hx1 Hx2). lia.
  - apply selected_Sorted.
  - apply selected_Sorted.
  - by rewrite !selected_Permutation, Hperm.
Qed.

(** X15: with an explicit key and distinct record ids under it, the outcome
    of a run does not depend on the order in which the table stores its
    rows. *)
Theorem export_storage_order_irrelevant :
  ∀ (U : UnicodeData) (w : world) (k : Z) (rows rows' : list row)
    (s : state),
    db w = db_table rows →
    rows ≡ₚ rows' →
    NoDup (Id <$> filter (λ r, ArchiveId r = k) rows) →
    export_gacha_data (with_db w (db_table rows')) (Some k) s
    = export_gacha_data w (Some k) s.
Proof.
  intros U w k rows rows' s Hdb Hperm Hnd.
  rewrite !export_gacha_data_run, Hdb.
  cbn [with_db db resolved_key open_error dump_error].
  by rewrite <- (selected_Permutation_eq k rows rows' Hperm Hnd).
Qed.

(** ** The further properties at concrete inputs *)

Lemma parse_timestamp_clean_offset_witness :
  parse_timestamp (U := unicode_tables)
    (py "2024-01-02 03:04:05" ++ [LF] ++ py "-05:00")
  = py "2024-01-02 03:04:05".
Proof.
  apply (parse_timestamp_clean_offset (U := unicode_tables)
           (py "2024-01-02 03:04:05" ++ [LF] ++ py "-05:00")
           (py "2024-01-02 03:04:05") (py "-05:00")).
  - vm_compute. reflexivity.
  - vm_compute. reflexivity.
  - vm_compute. reflexivity.
Defined.

Lemma parse_timestamp_no_outer_space_witness :
  isspace (UnicodeData := unicode_tables) 50%N = false.
Proof.
  apply (parse_timestamp_no_outer_space (U := unicode_tables)
           (py " 2024-11-16 ") 50%N).
  left. vm_compute. reflexivity.
Defined.



Lemma export_gacha_data_accounting_witness :
  let w := a_world (db_table three_rows) in
  ∃ (rows : list row) (k : Z),
    db w = db_table rows
    ∧ resolved_key None rows = Some k
    ∧ stdout (run_state w None)
      = stdout (initial absent) ++ exporting_line k (selected k rows)
          :: row_warnings (selected k rows)
          ++ summary_lines w k (list_ (run_document w None))
    ∧ length (filter (λ r, ArchiveId r = k) rows)
      = (length (list_ (run_document w None))
         + length (row_warnings (selected k rows)))%nat.
Proof.
  apply (export_gacha_data_accounting unicode_tables
           (a_world (db_table three_rows)) None (initial absent)).
  vm_compute. reflexivity.
Defined.

Lemma exported_records_well_formed_witness :
  Forall (λ rec,
            Rec.count rec = py "1"
            ∧ (LF ∉ Rec.time rec)
            ∧ (∀ c, head (Rec.time rec) = Some c ∨ last (Rec.time rec) = Some c
                    → isspace (UnicodeData := unicode_tables) c = false)
            ∧ Rec.uigf_gacha_type rec
              ∈ [py "100"; py "200"; py "301"; py "302"; py "500"]
            ∧ Rec.gacha_type rec
              ∈ [py "100"; py "200"; py "301"; py "302"; py "400"; py "500"]
            ∧ (Rec.item_type rec = character ∧ Rec.rank_type rec = py "5"
               ∨ Rec.item_type rec = weapon ∧ Rec.rank_type rec = py "3")
            ∧ Rec.name rec
              = Rec.item_type rec ++ py "_" ++ Rec.item_id rec)
    (list_ (run_document (a_world (db_table three_rows)) None)).
Proof.
  apply (exported_records_well_formed unicode_tables
           (a_world (db_table three_rows)) None (initial absent)
           (run_state (a_world (db_table three_rows)) None)).
  vm_compute. reflexivity.
Defined.

Lemma exported_ids_distinct_witness :
  NoDup (Rec.id <$> list_ (run_document (a_world (db_table three_rows)) None)).
Proof.
  apply (exported_ids_distinct unicode_tables
           (a_world (db_table three_rows)) None (initial absent)
           (run_state (a_world (db_table three_rows)) None)
           _ three_rows 800000001).
  - vm_compute. reflexivity.
  - reflexivity.
  - reflexivity.
  - apply (bool_decide_unpack _). vm_compute. exact I.
Defined.


Lemma export_storage_order_irrelevant_witness :
  export_gacha_data (U := unicode_tables)
    (with_db (a_world (db_table three_rows)) (db_table (rev three_rows)))
    (Some 800000001) (initial absent)
  = export_gacha_data (U := unicode_tables) (a_world (db_table three_rows))
      (Some 800000001) (initial absent).
Proof.
  apply (export_storage_order_irrelevant unicode_tables
           (a_world (db_table three_rows)) 800000001 three_rows
           (rev three_rows) (initial absent)).
  - reflexivity.
  - apply Permutation_rev.
  - apply (bool_decide_unpack _). vm_compute. exact I.
Defined.
